(** * Organizer dashboard and template context of eventyay-tickets

    A shallow embedding of
    - [src/pretix/eventyay_common/views/dashboards.py]
      ([rearrange], [widgets_for_event_qs], [annotated_event_query],
      [organiser_dashboard], [user_index_widgets_lazy]) and
    - [src/pretix/eventyay_common/context.py]
      ([contextprocessor], [_default_context]),
    followed by the properties the specification states about them.

    Python dictionaries with string keys are finite maps ([gmap string _]),
    dictionaries used as records are records whose optional keys are
    [option] fields, timestamps are integers (POSIX seconds), querysets are
    lists of rows, and the builtin [sorted] and SQL [ORDER BY] are a stable
    insertion sort driven by a strict comparison. *)

From stdpp Require Import base option list sorting strings pretty gmap.
From Stdlib Require Import Ascii ZArith Lia.

Local Open Scope string_scope.
Local Open Scope Z_scope.

(** ** A stable sort driven by a strict "goes before" test

    [sorted(l, key=k, reverse=r)] and [ORDER BY] only ever ask whether one
    element must go strictly before another one; elements that are not
    ordered either way keep the order they had. *)
Module StableSort.
Section Sort.
Context {A : Type} (before : A → A → bool).

Fixpoint insert_sorted (x : A) (l : list A) : list A :=
  match l with
  | [] => [x]
  | y :: l' => if before y x then y :: insert_sorted x l' else x :: y :: l'
  end.

Definition stable_sort (l : list A) : list A := foldr insert_sorted [] l.

(** [tied a b]: neither element goes before the other. *)
Definition tied (a b : A) : bool := negb (before a b) && negb (before b a).

(** The laws of a strict weak order, stated on the test. *)
Class StrictWeak : Prop := {
  before_irrefl : ∀ a, before a a = false;
  before_trans : ∀ a b c, before a b = true → before b c = true → before a c = true;
  before_negtrans : ∀ a b c, before a b = false → before b c = false → before a c = false
}.

(** [in_order l]: no later element goes before an earlier one. *)
Definition in_order : list A → Prop :=
  StronglySorted (λ a b, before b a = false).

(** [a] stands before [b] in [l]: every position of [a] is smaller than every
    position of [b]. *)
Definition precedes (l : list A) (a b : A) : Prop :=
  ∀ i j : nat, l !! i = Some a → l !! j = Some b → (i < j)%nat.
End Sort.
End StableSort.

(** ** The persisted entities the two files read (pretix.base.models) *)
Module Models.

Record SubEvent := {
  sub_pk : Z;
  sub_date_from : option Z;
  sub_date_to : option Z
}.

Inductive OrderStatus := STATUS_PENDING | STATUS_EXPIRED | STATUS_PAID | STATUS_CANCELED.

Record Order := {
  status : OrderStatus;
  order_testmode : bool
}.

Record RequiredAction := { done : bool }.

(** An event row together with its related rows and the two settings the
    code reads ([event.settings.create_for], [.talk_schedule_public]). *)
Record Event := {
  pk : Z;
  slug : string;
  name : string;
  has_subevents : bool;
  date_from : option Z;
  date_to : option Z;
  live : bool;
  testmode : bool;
  subevents : list SubEvent;
  orders : list Order;
  requiredaction_set : list RequiredAction;
  create_for : option string;
  talk_schedule_public : option bool
}.

Record Organizer := { organizer_slug : string }.

Record Team := { can_create_events : bool }.

Record User := {
  user_pk : Z;
  is_authenticated : bool;
  is_staff : bool;
  teams : list Team
}.

Record StaffSession := {
  staff_user : Z;
  date_end : option Z;
  comment : option string
}.

(** The request object: [request.event] and [request.organizer] are
    attributes that middleware may or may not have set. *)
Record HttpRequest := {
  path : string;
  path_info : string;
  GET : gmap string string;
  user : User;
  session_key : option string;
  timezone : string;
  event : option Event;
  organizer : option Organizer
}.

End Models.

(** ** views/dashboards.py *)
Module Dashboards.
Import StableSort Models.

(** A widget descriptor: the dict each widget provider returns, with the
    field types of the data model ([priority] an integer, [display_size] and
    the other fields text).  A key that may be absent from the dict is an
    [option] field, so that [element.get(key, default)] is [default] on
    [None]. *)
Record widget := Widget {
  content : option string;
  display_size : option string;
  priority : option Z;
  lazy : option string;
  container_class : option string
}.

(** *** rearrange *)

(** The local dict [mapping] of [rearrange]. *)
Definition mapping : gmap string Z :=
  <["small" := 1]> (<["big" := 2]> (<["full" := 3]> ∅)).

(** [(element.get('priority', 1),
      mapping.get(element.get('display_size', 'small'), 1))] *)
Definition sort_key (element : widget) : Z * Z :=
  (default 1 (priority element),
   default 1 (mapping !! default "small" (display_size element))).

(** Python's [<] on pairs of integers. *)
Definition tuple_lt (k1 k2 : Z * Z) : bool :=
  (k1.1 <? k2.1) || ((k1.1 =? k2.1) && (k1.2 <? k2.2)).

(** [sorted(l, key=key, reverse=reverse)]: with [reverse] an element goes
    before another one when its key is the greater of the two; equal keys
    keep their order in both directions. *)
Definition sorted {A} (key : A → Z * Z) (reverse : bool) (l : list A) : list A :=
  stable_sort (λ a b, if reverse then tuple_lt (key b) (key a)
                      else tuple_lt (key a) (key b)) l.

Definition rearrange (widgets : list widget) : list widget :=
  sorted sort_key true widgets.

(** *** The query layer: SQL values, three-valued conditions, aggregates *)

Inductive vendor := postgresql | sqlite | mysql | oracle.

(** A nullable timestamp or integer column is [option Z]; a condition
    evaluates to true, false or unknown ([None]). *)
Definition sql_and (p q : option bool) : option bool :=
  match p, q with
  | Some false, _ | _, Some false => Some false
  | Some true, Some true => Some true
  | _, _ => None
  end.

Definition sql_or (p q : option bool) : option bool :=
  match p, q with
  | Some true, _ | _, Some true => Some true
  | Some false, Some false => Some false
  | _, _ => None
  end.

(** [field__gte=v], [field__lt=v], [field__isnull=b], [field=b] *)
Definition gte (x : option Z) (v : Z) : option bool := (λ a, v <=? a) <$> x.
Definition lt (x : option Z) (v : Z) : option bool := (λ a, a <? v) <$> x.
Definition isnull (x : option Z) (b : bool) : option bool :=
  Some (Bool.eqb (if x is None then true else false) b).
Definition exact (x b : bool) : option bool := Some (Bool.eqb x b).

(** [WHERE] keeps the rows whose condition is true. *)
Definition qfilter {R} (q : R → option bool) (qs : list R) : list R :=
  List.filter (λ r, if q r is Some true then true else false) qs.

(** [Max], [Min]: aggregates skip NULLs and are NULL over no value. *)
Definition agg (f : Z → Z → Z) (x y : option Z) : option Z :=
  match x, y with
  | Some a, Some b => Some (f a b)
  | Some a, None => Some a
  | None, _ => y
  end.
Definition Max (col : list (option Z)) : option Z := foldr (agg Z.max) None col.
Definition Min (col : list (option Z)) : option Z := foldr (agg Z.min) None col.

(** [Greatest]: PostgreSQL skips NULL arguments, the other backends answer
    NULL as soon as one argument is NULL. *)
Definition Greatest (v : vendor) (x y : option Z) : option Z :=
  match v with
  | postgresql => agg Z.max x y
  | _ => match x, y with Some a, Some b => Some (Z.max a b) | _, _ => None end
  end.

Fixpoint Coalesce (args : list (option Z)) : option Z :=
  match args with
  | [] => None
  | Some x :: _ => Some x
  | None :: rest => Coalesce rest
  end.

(** *** annotated_event_query *)

Record annotated_event := {
  ev : Event;
  order_count : option Z;
  has_ra : option bool;
  min_from : option Z;
  max_from : option Z;
  max_to : option Z;
  max_fromto : option Z;
  order_to : option Z
}.

(** The [active_orders] subquery: one row holding the count, or no row. *)
Definition active_orders (e : Event) : option Z :=
  let n := length (List.filter (λ o, match status o with
                                     | STATUS_PENDING | STATUS_PAID => true
                                     | _ => false
                                     end) (orders e)) in
  if n is O then None else Some (Z.of_nat n).

Definition required_actions (e : Event) : list RequiredAction :=
  List.filter (λ r, negb (done r)) (requiredaction_set e).

Definition annotate (v : vendor) (lazy : bool) (e : Event) : annotated_event :=
  let min_from := Min (sub_date_from <$> subevents e) in
  let max_from := Max (sub_date_from <$> subevents e) in
  let max_to := Max (sub_date_to <$> subevents e) in
  let max_fromto := Greatest v (Max (sub_date_to <$> subevents e))
                                (Max (sub_date_from <$> subevents e)) in
  {| ev := e;
     order_count := if lazy then None else active_orders e;
     has_ra := if lazy then None
               else Some (if required_actions e is [] then false else true);
     min_from := min_from;
     max_from := max_from;
     max_to := max_to;
     max_fromto := max_fromto;
     order_to := Coalesce [max_fromto; max_to; max_from; date_to e; date_from e] |}.

(** What the views get from outside this file. *)
Class Env := {
  db : vendor;
  get_events_with_any_permission : HttpRequest → list Event;
  user_dashboard_widgets : HttpRequest → list (list widget);
  event_html : HttpRequest → annotated_event → string;
  SITE_URL : string;
  TALK_HOSTNAME : string
}.

Definition annotated_event_query `{Env} (request : HttpRequest) (lazy : bool)
  : list annotated_event :=
  annotate db lazy <$> get_events_with_any_permission request.

(** *** order_by *)

Inductive direction := Asc | Desc.

(** NULLs sort as the largest value on PostgreSQL and Oracle and as the
    smallest one on SQLite and MySQL. *)
Definition nulls_largest (v : vendor) : bool :=
  match v with postgresql | oracle => true | sqlite | mysql => false end.

Definition cmp_null (v : vendor) (x y : option Z) : comparison :=
  match x, y with
  | Some a, Some b => a ?= b
  | None, None => Eq
  | None, Some _ => if nulls_largest v then Gt else Lt
  | Some _, None => if nulls_largest v then Lt else Gt
  end.

Definition cmp_col (v : vendor) (d : direction) (x y : option Z) : comparison :=
  match d with Asc => cmp_null v x y | Desc => cmp_null v y x end.

Fixpoint cmp_rows {R} (v : vendor) (cols : list (direction * (R → option Z)))
  (a b : R) : comparison :=
  match cols with
  | [] => Eq
  | (d, f) :: cols' =>
      match cmp_col v d (f a) (f b) with
      | Eq => cmp_rows v cols' a b
      | c => c
      end
  end.

(** The columns the views order by. *)
Definition field (f : string) (a : annotated_event) : option Z :=
  if String.eqb f "date_from" then date_from (ev a)
  else if String.eqb f "order_to" then order_to a
  else if String.eqb f "pk" then Some (pk (ev a))
  else None.

(** ['-order_to'] is descending, ['order_to'] ascending. *)
Definition ordering (s : string) : direction * (annotated_event → option Z) :=
  match s with
  | String "-"%char f => (Desc, field f)
  | _ => (Asc, field s)
  end.

Definition order_by `{Env} (fields : list string) (qs : list annotated_event)
  : list annotated_event :=
  stable_sort (λ a b, if cmp_rows db (ordering <$> fields) a b is Lt then true else false) qs.

(** *** The three dashboard filters *)

(** [Q(has_subevents=False) & Q(Q(Q(date_to__isnull=True) & Q(date_from__gte=now()))
                              | Q(Q(date_to__isnull=False) & Q(date_to__gte=now())))]
    Each of the two comparisons reads the clock for itself: [now_from] is
    the reading of the first [now()], [now_to] that of the second. *)
Definition upcoming (now_from now_to : Z) (a : annotated_event) : option bool :=
  sql_and (exact (has_subevents (ev a)) false)
    (sql_or (sql_and (isnull (date_to (ev a)) true) (gte (date_from (ev a)) now_from))
            (sql_and (isnull (date_to (ev a)) false) (gte (date_to (ev a)) now_to))).

Definition past (now_from now_to : Z) (a : annotated_event) : option bool :=
  sql_and (exact (has_subevents (ev a)) false)
    (sql_or (sql_and (isnull (date_to (ev a)) true) (lt (date_from (ev a)) now_from))
            (sql_and (isnull (date_to (ev a)) false) (lt (date_to (ev a)) now_to))).

Definition series (a : annotated_event) : option bool :=
  exact (has_subevents (ev a)) true.

(** *** widgets_for_event_qs *)

(** One loop iteration: the dict appended for [event]. *)
Definition event_widget `{Env} (request : HttpRequest) (lazy : bool)
  (event : annotated_event) : widget :=
  {| content := Some (if lazy then "" else event_html request event);
     display_size := Some "small";
     lazy := Some ("event-" +:+ pretty (pk (ev event)));
     priority := Some 100;
     container_class := Some "widget-container widget-container-event" |}.

(** [qs[:nmax]] followed by the loop; [nmax] is a length, the callers pass
    literals. *)
Definition widgets_for_event_qs `{Env} (request : HttpRequest)
  (qs : list annotated_event) (user : User) (nmax : nat) (lazy : bool) : list widget :=
  let events := take nmax qs in
  event_widget request lazy <$> events.

(** *** organiser_dashboard, user_index_widgets_lazy *)

Record dashboard_ctx := {
  ctx_widgets : list widget;
  ctx_can_create_event : bool;
  ctx_upcoming : list widget;
  ctx_past : list widget;
  ctx_series : list widget;
  ticket_component : string;
  talk_component : string;
  video_component : string
}.

Definition upcoming_qs `{Env} (request : HttpRequest) (lazy : bool)
    (now_from now_to : Z) :=
  order_by ["date_from"; "order_to"; "pk"]
    (qfilter (upcoming now_from now_to) (annotated_event_query request lazy)).

Definition past_qs `{Env} (request : HttpRequest) (lazy : bool)
    (now_from now_to : Z) :=
  order_by ["-order_to"; "pk"]
    (qfilter (past now_from now_to) (annotated_event_query request lazy)).

Definition series_qs `{Env} (request : HttpRequest) (lazy : bool) :=
  order_by ["-order_to"; "pk"]
    (qfilter series (annotated_event_query request lazy)).

(** [now1] to [now4] are the four readings of the clock, in program order:
    two for the upcoming events, two for the past ones. *)
Definition organiser_dashboard `{Env} (request : HttpRequest) (now1 now2 now3 now4 : Z)
  : dashboard_ctx :=
  let widgets := concat (user_dashboard_widgets request) in
  {| ctx_widgets := rearrange widgets;
     ctx_can_create_event :=
       existsb can_create_events (teams (user request));
     ctx_upcoming :=
       widgets_for_event_qs request (upcoming_qs request true now1 now2)
         (user request) 7 true;
     ctx_past :=
       widgets_for_event_qs request (past_qs request true now3 now4)
         (user request) 8 true;
     ctx_series :=
       widgets_for_event_qs request (series_qs request true) (user request) 8 true;
     ticket_component := SITE_URL +:+ "/control";
     talk_component := TALK_HOSTNAME +:+ "/orga";
     video_component := "#" |}.

Definition user_index_widgets_lazy `{Env} (request : HttpRequest)
    (now1 now2 now3 now4 : Z) : list widget :=
  let widgets : list widget := [] in
  let widgets := (widgets ++
    widgets_for_event_qs request (upcoming_qs request false now1 now2)
      (user request) 7 false)%list in
  let widgets := (widgets ++
    widgets_for_event_qs request (past_qs request false now3 now4)
      (user request) 8 false)%list in
  let widgets := (widgets ++
    widgets_for_event_qs request (series_qs request false) (user request) 8 false)%list in
  widgets.

(** *** The dicts as the providers hand them over

    A provider can put other values than an integer or a string under a key
    of its dict: here [None], booleans and lists of integers as well.
    [sorted] raises what its key function or a comparison of two keys
    raises; [None] as a result below stands for the [TypeError]. *)
Inductive pyval :=
| PyNone
| PyBool (b : bool)
| PyInt (n : Z)
| PyStr (s : string)
| PyList (items : list Z).

Fixpoint list_lt (l1 l2 : list Z) : bool :=
  match l1, l2 with
  | [], [] => false
  | [], _ :: _ => true
  | _ :: _, [] => false
  | x :: l1', y :: l2' => if x =? y then list_lt l1' l2' else x <? y
  end.

(** [a == b] and [a < b]: integers and booleans compare as numbers, strings
    as strings, lists item by item; [<] between any other two values
    raises. *)
Definition as_number (a : pyval) : option Z :=
  match a with
  | PyBool b => Some (if b then 1 else 0)
  | PyInt n => Some n
  | _ => None
  end.

Definition py_eq (a b : pyval) : bool :=
  match as_number a, as_number b with
  | Some x, Some y => x =? y
  | _, _ =>
      match a, b with
      | PyNone, PyNone => true
      | PyStr s, PyStr t => String.eqb s t
      | PyList l1, PyList l2 => bool_decide (l1 = l2)
      | _, _ => false
      end
  end.

Definition py_lt (a b : pyval) : option bool :=
  match as_number a, as_number b with
  | Some x, Some y => Some (x <? y)
  | _, _ =>
      match a, b with
      | PyStr s, PyStr t => Some (String.ltb s t)
      | PyList l1, PyList l2 => Some (list_lt l1 l2)
      | _, _ => None
      end
  end.

(** [mapping.get(size, 1)]: a list cannot be hashed; a key that is not in
    [mapping] gives the default. *)
Definition mapping_get (size : pyval) : option Z :=
  match size with
  | PyList _ => None
  | PyStr s => Some (default 1 (mapping !! s))
  | _ => Some 1
  end.

(** [sort_key] on the dict itself. *)
Definition sort_key_py (element : gmap string pyval) : option (pyval * Z) :=
  tier ← mapping_get (default (PyStr "small") (element !! "display_size")) ;
  Some (default (PyInt 1) (element !! "priority"), tier).

(** [<] on two keys: the first components that differ decide. *)
Definition tuple_lt_py (k1 k2 : pyval * Z) : option bool :=
  if py_eq k1.1 k2.1 then Some (k1.2 <? k2.2) else py_lt k1.1 k2.1.

(** [sorted(widgets, key=sort_key, reverse=True)] on the dicts: the keys are
    computed first, then compared, and whatever raises ends the sort. *)
Section SortedPy.
Context {A : Type} (before : A → A → option bool).

Fixpoint insert_sorted_py (x : A) (l : list A) : option (list A) :=
  match l with
  | [] => Some [x]
  | y :: l' =>
      b ← before y x ;
      if b : bool then l'' ← insert_sorted_py x l' ; Some (y :: l'')
      else Some (x :: y :: l')
  end.

Definition stable_sort_py (l : list A) : option (list A) :=
  foldr (λ x sorted, sorted ≫= insert_sorted_py x) (Some []) l.
End SortedPy.

Definition rearrange_py (widgets : list (gmap string pyval))
  : option (list (gmap string pyval)) :=
  keys ← (mapM sort_key_py widgets : option (list (pyval * Z))) ;
  keyed ← stable_sort_py (λ a b, tuple_lt_py b.1 a.1) (zip keys widgets) ;
  Some (snd <$> (keyed : list (pyval * Z * gmap string pyval))).

(** A dict is a widget descriptor when its priority, if any, is an integer
    and its display size, if any, a string; [as_widget] reads it as the
    record. *)
Definition descriptor (element : gmap string pyval) : Prop :=
  (element !! "priority" = None ∨ ∃ n, element !! "priority" = Some (PyInt n))
  ∧ (element !! "display_size" = None
     ∨ ∃ s, element !! "display_size" = Some (PyStr s)).

Definition as_text (v : option pyval) : option string :=
  match v with Some (PyStr s) => Some s | _ => None end.

Definition as_widget (element : gmap string pyval) : widget :=
  {| content := as_text (element !! "content");
     display_size := as_text (element !! "display_size");
     priority := match element !! "priority" with Some (PyInt n) => Some n | _ => None end;
     lazy := as_text (element !! "lazy");
     container_class := as_text (element !! "container_class") |}.

End Dashboards.

(** ** context.py *)
Module Context.
Import Models.

(** Plain data, as the cache and the session keep it.  [DDomain] is the
    entry that [get_event_domain] keeps in the cache: the domain name of the
    event, if it has one. *)
Inductive data :=
| DNone
| DBool (b : bool)
| DStr (s : string)
| DDomain (domainname : option string).

(** [request.event.subevents.filter(pk=pk)]: a query that has not run yet. *)
Record QuerySet := {
  all_rows : list SubEvent;
  filter_pk : Z
}.

(** The values stored in the template context. *)
Inductive value :=
| VData (d : data)
| VSettings
| VGlobalSettings
| VNav (items : list string)
| VStaffSessions (qs : list StaffSession)
| VSubEvents (qs : QuerySet).

Abbreviation VNone := (VData DNone).
Abbreviation VBool b := (VData (DBool b)).
Abbreviation VStr s := (VData (DStr s)).

(** [v is None] *)
Definition is_none (v : data) : bool :=
  match v with DNone => true | _ => false end.

(** Python truthiness, as [not child_sess] and [and] use it; the entry of
    [get_event_domain] is a pair, which is never empty. *)
Definition truthy (v : data) : bool :=
  match v with
  | DNone => false
  | DBool b => b
  | DStr s => negb (String.eqb s "")
  | DDomain _ => true
  end.

Inductive exn := Resolver404 | ValueError (msg : string) | OverflowError.

(** What a call can change: the event's cache (value and timeout of each
    entry), the session, the error log, and the attribute
    [_eventyay_common_default_context] of the request. *)
Record world := {
  cache : gmap string (data * Z);
  session : gmap string data;
  log : list string;
  memo : option (gmap string value)
}.

(** State and exceptions. *)
Definition M (A : Type) : Type := world → (exn + A) * world.

Definition ret {A} (a : A) : M A := λ w, (inr a, w).

Definition bind {A B} (m : M A) (k : A → M B) : M B :=
  λ w, match m w with
       | (inr a, w') => k a w'
       | (inl e, w') => (inl e, w')
       end.

Definition raise {A} (e : exn) : M A := λ w, (inl e, w).

(** [try: body / except ...: handler]: [handler e] is [None] for an
    exception the clause does not name. *)
Definition try_except {A} (body : M A) (handler : exn → option (M A)) : M A :=
  λ w, match body w with
       | (inl e, w') => match handler e with
                        | Some h => h w'
                        | None => (inl e, w')
                        end
       | r => r
       end.

Global Instance M_ret : MRet M := @ret.
Global Instance M_bind : MBind M := λ A B k m, bind m k.

(** [event.cache.get(key)]: [None] when there is no entry. *)
Definition cache_get (key : string) : M data :=
  λ w, (inr (default DNone (fst <$> cache w !! key)), w).

Definition cache_set (key : string) (v : data) (timeout : Z) : M unit :=
  λ w, (inr (), {| cache := <[key := (v, timeout)]> (cache w);
                   session := session w; log := log w; memo := memo w |}).

(** [request.session.get(key)] *)
Definition session_get (key : string) : M data :=
  λ w, (inr (default DNone (session w !! key)), w).

(** [request.session[key] = v] *)
Definition session_set (key : string) (v : data) : M unit :=
  λ w, (inr (), {| cache := cache w; session := <[key := v]> (session w);
                   log := log w; memo := memo w |}).

Definition logger_error (msg : string) : M unit :=
  λ w, (inr (), {| cache := cache w; session := session w;
                   log := (log w ++ [msg])%list; memo := memo w |}).

Definition get_memo : M (option (gmap string value)) := λ w, (inr (memo w), w).

Definition set_memo (c : gmap string value) : M unit :=
  λ w, (inr (), {| cache := cache w; session := session w; log := log w;
                   memo := Some c |}).

Record ResolverMatch := { url_name : option string }.

(** What the module imports: the URL resolver, the settings, the
    navigation builders, the permission oracle, and the builtins [int] and
    [str.strip].  [resolve] gives [None] when it raises [Resolver404];
    [py_int] gives the message of the [ValueError] when it raises one.
    [known_domain] is the domain that the tables give for an event, and
    [db_int] tells the numbers that the database adapter can bind. *)
Class Env := {
  resolve : string → option ResolverMatch;
  get_script_prefix : string;
  DEBUG : bool;
  TALK_HOSTNAME : string;
  PRETIX_ADMIN_AUDIT_COMMENTS : bool;
  get_global_navigation : HttpRequest → list string;
  get_event_navigation : HttpRequest → list string;
  has_active_staff_session : User → option string → bool;
  StaffSession_objects : list StaffSession;
  urljoin : string → string → string;
  is_video_enabled : Event → bool;
  known_domain : Event → option string;
  EventCreatedFor_BOTH : string;
  has_event_permission : User → Organizer → Event → string → HttpRequest → bool;
  py_int : string → string + Z;
  py_strip : string → string;
  db_int : Z → bool
}.

Section WithEnv.
Context `{Env}.

Definition resolve_ (p : string) : M ResolverMatch :=
  match resolve p with
  | Some url => ret url
  | None => raise Resolver404
  end.

(** [int(s)] *)
Definition int (s : string) : M Z :=
  match py_int s with
  | inr n => ret n
  | inl msg => raise (ValueError msg)
  end.

Definition opt_data (o : option string) : data :=
  match o with Some s => DStr s | None => DNone end.

Definition opt_str (o : option string) : value := VData (opt_data o).

(** Reading a [selected_subevents] value, as the template does: the query
    runs then, and the adapter raises for a number that it cannot bind. *)
Definition evaluate (qs : QuerySet) : exn + list SubEvent :=
  if db_int (filter_pk qs)
  then inr (List.filter (λ s, sub_pk s =? filter_pk qs) (all_rows qs))
  else inl OverflowError.

(** Modelled from the spec: [get_event_domain(event, fallback=True)] belongs
    to [pretix.multidomain.urlreverse], which is not among the sources; the
    spec has it tell "whether a custom domain is bound".  What the tables
    say is the parameter [known_domain].  The helper keeps its answer in the
    event's cache, which this file reads and writes too: under
    ['domain_fallback'], with the default timeout of 300 seconds, and it
    asks the tables only when the cache gives [None].  The string ['none']
    in the cache stands for no domain; any other value found there is
    handed back.  The event object of a request is taken as it comes from
    the middleware: a copy of the answer that the helper may have left on it
    earlier in the same request is not modelled. *)
Definition get_event_domain (event : Event) : M data :=
  domain ← cache_get "domain_fallback" ;
  match domain with
  | DNone =>
      let domainname := known_domain event in
      cache_set "domain_fallback" (DDomain domainname) 300 ;;
      ret (opt_data domainname)
  | DDomain domainname => ret (opt_data domainname)
  | DStr s => if String.eqb s "none" then ret DNone else ret (DStr s)
  | DBool b => ret (DBool b)
  end.

(** Lines 54-60: the staff sessions that still lack a comment. *)
Definition staff_need_to_explain (u : User) : list StaffSession :=
  if is_staff u && PRETIX_ADMIN_AUDIT_COMMENTS then
    List.filter (λ s, match comment s with
                      | None => true
                      | Some c => String.eqb c ""
                      end)
      (List.filter (λ s, (staff_user s =? user_pk u) && bool_decide (date_end s ≠ None))
         StaffSession_objects)
  else [].

(** [x and y], for a boolean [y]: [x] itself when it is falsy. *)
Definition py_and (x : data) (y : bool) : value :=
  if truthy x then VBool y else VData x.

(** Lines 79-98. *)
Definition testmode_part (request : HttpRequest) (organizer : Organizer)
  (event : Event) (ctx : gmap string value) : M (gmap string value) :=
  if negb (testmode event) then
    complain_testmode_orders ← cache_get "complain_testmode_orders" ;
    complain_testmode_orders ←
      (if is_none complain_testmode_orders then
         let complain_testmode_orders :=
           DBool (existsb order_testmode (orders event)) in
         cache_set "complain_testmode_orders" complain_testmode_orders 30 ;;
         ret complain_testmode_orders
       else ret complain_testmode_orders) ;
    ret (<["complain_testmode_orders" :=
            py_and complain_testmode_orders
              (has_event_permission (user request) organizer event
                 "can_view_orders" request)]> ctx)
  else
    ret (<["complain_testmode_orders" := VBool false]> ctx).

(** Lines 100-108. *)
Definition child_session_part (request : HttpRequest) (event : Event)
  (has_domain : bool) (ctx : gmap string value) : M (gmap string value) :=
  if negb (live event) && has_domain then
    let child_sess_key := "child_session_" +:+ pretty (pk event) in
    child_sess ← session_get child_sess_key ;
    ctx ← (if negb (truthy child_sess) then
             session_set child_sess_key (opt_data (session_key request)) ;;
             ret ctx
           else
             ret (<["new_session" := VData child_sess]> ctx)) ;
    session_set "event_access" (DBool true) ;;
    ret ctx
  else ret ctx.

(** Lines 109-118. *)
Definition subevent_part (request : HttpRequest) (event : Event)
  (ctx : gmap string value) : M (gmap string value) :=
  if negb (String.eqb (default "" (GET request !! "subevent")) "") then
    let subevent_id := py_strip (default "" (GET request !! "subevent")) in
    try_except
      (pk ← int subevent_id ;
       ret (<["selected_subevents" :=
               VSubEvents {| all_rows := subevents event; filter_pk := pk |}]> ctx))
      (λ e, match e with
            | ValueError msg =>
                Some (logger_error ("Error parsing subevent ID: " +:+ msg) ;; ret ctx)
            | _ => None
            end)
  else ret ctx.

(** Lines 62-118: the part for a request that carries an event. *)
Definition event_part (request : HttpRequest) (event : Event)
  (ctx : gmap string value) : M (gmap string value) :=
  let ctx := <["talk_edit_url" :=
                VStr (urljoin TALK_HOSTNAME ("/orga/event/" +:+ slug event))]> ctx in
  let ctx := <["is_video_enabled" := VBool (is_video_enabled event)]> ctx in
  let ctx := <["is_talk_event_created" := VBool false]> ctx in
  let ctx :=
    if bool_decide (create_for event = Some EventCreatedFor_BOTH)
       || bool_decide (talk_schedule_public event ≠ None)
    then <["is_talk_event_created" := VBool true]> ctx else ctx in
  match organizer request with
  | Some organizer =>
      let ctx := <["nav_items" := VNav (get_event_navigation request)]> ctx in
      domain ← get_event_domain event ;
      let has_domain := negb (is_none domain) in
      let ctx := <["has_domain" := VBool has_domain]> ctx in
      ctx ← testmode_part request organizer event ctx ;
      ctx ← child_session_part request event has_domain ctx ;
      subevent_part request event ctx
  | None => ret ctx
  end.

(** Lines 48-118: the part for an authenticated user. *)
Definition user_part (request : HttpRequest) (ctx : gmap string value)
  : M (gmap string value) :=
  let ctx := <["nav_items" := VNav (get_global_navigation request)]> ctx in
  let ctx := <["staff_session" :=
                VBool (has_active_staff_session (user request) (session_key request))]> ctx in
  let ctx := <["staff_need_to_explain" :=
                VStaffSessions (staff_need_to_explain (user request))]> ctx in
  match event request with
  | Some event => event_part request event ctx
  | None => ret ctx
  end.

Definition _default_context (request : HttpRequest) : M (gmap string value) :=
  url ← try_except (url ← resolve_ (path_info request) ; ret (Some url))
         (λ e, match e with Resolver404 => Some (ret None) | _ => None end) ;
  match url with
  | None => ret ∅
  | Some url =>
      if negb (String.prefix (get_script_prefix +:+ "common") (path request)) then ret ∅
      else
        let ctx : gmap string value :=
          <["talk_hostname" := VStr TALK_HOSTNAME]>
            (<["DEBUG" := VBool DEBUG]>
               (<["django_settings" := VSettings]>
                  (<["settings" := VSettings]>
                     (<["url_name" := opt_str (url_name url)]> ∅)))) in
        let ctx := <["global_settings" := VGlobalSettings]> ctx in
        if is_authenticated (user request) then user_part request ctx
        else ret ctx
  end.

(** The memo on the request object. *)
Definition contextprocessor (request : HttpRequest) : M (gmap string value) :=
  m ← get_memo ;
  match m with
  | Some ctx => ret ctx
  | None =>
      ctx ← _default_context request ;
      set_memo ctx ;;
      ret ctx
  end.

End WithEnv.
End Context.

(** ** views/dashboards.py: the event index *)
Module EventIndex.
Import StableSort Models.

(** What [request.event.subevents.get(pk=i)] can raise. *)
Inductive exn :=
| DoesNotExist
| MultipleObjectsReturned
| ValueError (msg : string)
| OverflowError.

(** The content types the view names, and any other one. *)
Inductive ContentType :=
| ct_Order | ct_Voucher | ct_Item | ct_ItemCategory | ct_Quota | ct_Question
| ct_other (model : string).

Global Instance ContentType_eq_dec : EqDecision ContentType.
Proof. solve_decision. Defined.

Record LogEntry := {
  log_pk : Z;
  action_type : string;
  content_type : ContentType;
  datetime : Z
}.

(** An order of the event with the columns that [Order.annotate_overpayments]
    adds; amounts are in the smallest unit of the currency. *)
Record OrderRow := {
  row_status : OrderStatus;
  require_approval : bool;
  pending_sum_t : Z;
  pending_sum_rc : Z
}.

Inductive RefundState :=
| REFUND_STATE_EXTERNAL | REFUND_STATE_TRANSIT | REFUND_STATE_DONE
| REFUND_STATE_FAILED | REFUND_STATE_CANCELED | REFUND_STATE_CREATED.

Global Instance OrderStatus_eq_dec : EqDecision OrderStatus.
Proof. solve_decision. Defined.

Global Instance RefundState_eq_dec : EqDecision RefundState.
Proof. solve_decision. Defined.

Record TimelineEntry := {
  tl_datetime : Z;
  tl_description : string
}.

(** What the view gets from outside this file: the permission oracle, the
    widget providers, the rows of the related tables, the banned action types,
    the rendering of a required action, the timeline, the calendar date of an
    instant in the event's time zone, the builtins [int] ([None] when it
    raises [ValueError]) and [repr], and the numbers that the database
    adapter can bind. *)
Class Env := {
  has_event_permission : User → Organizer → Event → string → HttpRequest → bool;
  event_dashboard_widgets : Event → option SubEvent → bool → list (list Dashboards.widget);
  logentry_set : Event → list LogEntry;
  OVERVIEW_BANLIST : list string;
  order_rows : Event → list OrderRow;
  refunds : Event → list RefundState;
  cancellation_requests : Event → list Z;
  event_comment : Event → string;
  display : RequiredAction → HttpRequest → string;
  timeline_for_event : Event → option SubEvent → list TimelineEntry;
  local_date : Event → Z → Z;
  py_int : string → option Z;
  py_repr : string → string;
  db_int : Z → bool
}.

Section WithEnv.
Context `{Env}.

(** [request.event.subevents.get(pk=i)]: the value is converted with [int]
    (the field reports a failure with the [repr] of the value), the adapter
    binds the number or raises [OverflowError], then exactly one row must
    match. *)
Definition subevents_get (event : Event) (i : string) : exn + SubEvent :=
  match py_int i with
  | None =>
      inl (ValueError ("Field 'id' expected a number but got " +:+ py_repr i +:+ "."))
  | Some n =>
      if db_int n then
        match List.filter (λ s, sub_pk s =? n) (subevents event) with
        | [] => inl DoesNotExist
        | [s] => inr s
        | _ => inl MultipleObjectsReturned
        end
      else inl OverflowError
  end.

(** Lines 349-355 and 440-446: only [SubEvent.DoesNotExist] is caught. *)
Definition select_subevent (request : HttpRequest) (event : Event)
  : exn + option SubEvent :=
  if negb (String.eqb (default "" (GET request !! "subevent")) "")
     && has_subevents event
  then
    let i := default "" (GET request !! "subevent") in
    match subevents_get event i with
    | inr s => inr (Some s)
    | inl DoesNotExist => inr None
    | inl e => inl e
    end
  else inr None.

(** Lines 371-390: the log entries of the overview, newest first. *)
Definition overview_logs (request : HttpRequest) (organizer : Organizer) (event : Event)
    (can_view_orders can_view_vouchers can_change_event_settings : bool)
  : list LogEntry :=
  let qs := stable_sort (λ a b, datetime b <? datetime a) (logentry_set event) in
  let qs := List.filter (λ l, negb (bool_decide (action_type l ∈ OVERVIEW_BANLIST))) qs in
  let qs := if negb can_view_orders
            then List.filter (λ l, negb (bool_decide (content_type l = ct_Order))) qs
            else qs in
  let qs := if negb can_view_vouchers
            then List.filter (λ l, negb (bool_decide (content_type l = ct_Voucher))) qs
            else qs in
  if negb can_change_event_settings then
    let allowed_types := [ct_Voucher; ct_Order] in
    let allowed_types :=
      if has_event_permission (user request) organizer event "can_change_items" request
      then (allowed_types ++ [ct_Item; ct_ItemCategory; ct_Quota; ct_Question])%list
      else allowed_types in
    List.filter (λ l, bool_decide (content_type l ∈ allowed_types)) qs
  else qs.

Record index_ctx := {
  widgets : list Dashboards.widget;
  logs : list LogEntry;
  subevent : option SubEvent;
  actions : list (RequiredAction * string);
  comment_form : string * bool;
  has_overpaid_orders : bool;
  has_pending_orders_with_full_payment : bool;
  has_pending_refunds : bool;
  has_pending_approvals : bool;
  has_cancellation_requests : bool;
  timeline : list (Z * TimelineEntry * Z);
  today : Z;
  nearly_now : Z
}.

(** [event_index]; [organizer] and [event] are [request.organizer] and
    [request.event], [now] the reading of the clock. *)
Definition event_index (request : HttpRequest) (organizer : Organizer) (event : Event)
    (now : Z) : exn + index_ctx :=
  match select_subevent request event with
  | inl e => inl e
  | inr subevent =>
      let can_view_orders :=
        has_event_permission (user request) organizer event "can_view_orders" request in
      let can_change_orders :=
        has_event_permission (user request) organizer event "can_change_orders" request in
      let can_change_event_settings :=
        has_event_permission (user request) organizer event
          "can_change_event_settings" request in
      let can_view_vouchers :=
        has_event_permission (user request) organizer event "can_view_vouchers" request in
      let widgets :=
        if can_view_orders then concat (event_dashboard_widgets event subevent true)
        else [] in
      let qs := overview_logs request organizer event can_view_orders can_view_vouchers
                  can_change_event_settings in
      let a_qs := List.filter (λ a, negb (done a)) (requiredaction_set event) in
      let actions := if can_change_orders then take 5 a_qs else [] in
      inr {|
        widgets := Dashboards.rearrange widgets;
        logs := take 5 qs;
        subevent := subevent;
        actions := (λ a, (a, display a request)) <$> actions;
        comment_form := (event_comment event, negb can_change_event_settings);
        has_overpaid_orders :=
          can_view_orders
          && existsb (λ o, (negb (bool_decide (row_status o = STATUS_CANCELED))
                            && (pending_sum_t o <? 0))
                           || (bool_decide (row_status o = STATUS_CANCELED)
                               && (pending_sum_rc o <? 0)))
               (order_rows event);
        has_pending_orders_with_full_payment :=
          can_view_orders
          && existsb (λ o, bool_decide (row_status o ∈ [STATUS_EXPIRED; STATUS_PENDING])
                           && (pending_sum_t o <=? 0)
                           && negb (require_approval o))
               (order_rows event);
        has_pending_refunds :=
          can_view_orders
          && existsb (λ st, bool_decide (st ∈ [REFUND_STATE_CREATED; REFUND_STATE_EXTERNAL]))
               (refunds event);
        has_pending_approvals :=
          can_view_orders
          && existsb (λ o, bool_decide (row_status o = STATUS_PENDING)
                           && require_approval o)
               (order_rows event);
        has_cancellation_requests :=
          can_view_orders
          && (if cancellation_requests event is [] then false else true);
        timeline := (λ t, (local_date event (tl_datetime t), t, tl_datetime t))
                      <$> timeline_for_event event subevent;
        today := local_date event now;
        nearly_now := now - 20
      |}
  end.

(** [event_index_widgets_lazy]: the widgets of the providers, as they come. *)
Definition event_index_widgets_lazy (request : HttpRequest) (organizer : Organizer)
    (event : Event) : exn + list Dashboards.widget :=
  match select_subevent request event with
  | inl e => inl e
  | inr subevent => inr (concat (event_dashboard_widgets event subevent false))
  end.

End WithEnv.
End EventIndex.

(** ** Words of the specification *)
Module Spec.


(** "Event-scoped": the request resolves under the common prefix, its user is
    authenticated, and it carries both an event and an organizer.  Only such
    a request gets the test-mode flag and has its [subevent] parameter read. *)
Definition event_scoped `{Context.Env} (request : Models.HttpRequest) : bool :=
  bool_decide (Context.resolve (Models.path_info request) ≠ None)
  && String.prefix (Context.get_script_prefix +:+ "common") (Models.path request)
  && Models.is_authenticated (Models.user request)
  && bool_decide (Models.event request ≠ None)
  && bool_decide (Models.organizer request ≠ None).

(** "The cached existence test": the cached answer when there is one, and
    otherwise whether the event has a test-mode order. *)
Definition cached_existence_test (e : Models.Event) (w : Context.world) : bool :=
  match default Context.DNone (fst <$> Context.cache w !! "complain_testmode_orders") with
  | Context.DNone => existsb Models.order_testmode (Models.orders e)
  | answer => Context.truthy answer
  end.

(** The value that the cache gives for the existence test, computed and
    stored first when the cache has none. *)
Definition cached_answer (e : Models.Event) (w : Context.world) : Context.data :=
  match default Context.DNone (fst <$> Context.cache w !! "complain_testmode_orders") with
  | Context.DNone => Context.DBool (existsb Models.order_testmode (Models.orders e))
  | answer => answer
  end.

(** The value of the warning flag: [False] in test mode, and otherwise the
    cached answer [and] the permission check. *)
Definition flag_value `{Context.Env} (r : Models.HttpRequest) (org : Models.Organizer)
    (e : Models.Event) (w : Context.world) : Context.value :=
  if Models.testmode e then Context.VBool false
  else Context.py_and (cached_answer e w)
         (Context.has_event_permission (Models.user r) org e "can_view_orders" r).

(** Two requests that the code and its collaborators cannot tell apart,
    except by the query string. *)
Definition same_but_query `{Context.Env} (r r' : Models.HttpRequest) : Prop :=
  Models.path r' = Models.path r
  ∧ Models.path_info r' = Models.path_info r
  ∧ Models.user r' = Models.user r
  ∧ Models.session_key r' = Models.session_key r
  ∧ Models.event r' = Models.event r
  ∧ Models.organizer r' = Models.organizer r
  ∧ Context.get_global_navigation r' = Context.get_global_navigation r
  ∧ Context.get_event_navigation r' = Context.get_event_navigation r
  ∧ ∀ u o e p, Context.has_event_permission u o e p r'
               = Context.has_event_permission u o e p r.

(** The value a run leaves under a key of the context, if it returns one. *)
Definition context_lookup (run : (Context.exn + gmap string Context.value) * Context.world)
  (key : string) : option Context.value :=
  match run.1 with
  | inr ctx => ctx !! key
  | inl _ => None
  end.

(** The world the test-mode step leaves: the answer is stored, for 30
    seconds, when the event is out of test mode and the cache has none. *)
Definition after_testmode (e : Models.Event) (w : Context.world) : Context.world :=
  if Models.testmode e then w
  else match default Context.DNone
               (fst <$> Context.cache w !! "complain_testmode_orders") with
       | Context.DNone =>
           {| Context.cache :=
                <["complain_testmode_orders" :=
                   (Context.DBool (existsb Models.order_testmode (Models.orders e)), 30)]>
                  (Context.cache w);
              Context.session := Context.session w;
              Context.log := Context.log w;
              Context.memo := Context.memo w |}
       | _ => w
       end.

(** "A custom domain is bound": what [get_event_domain] answers from the
    cache [w], or from the tables when the cache has no entry; and the world
    that it leaves, with the answer stored. *)
Definition domain_of `{Context.Env} (e : Models.Event) (w : Context.world)
  : Context.data :=
  match default Context.DNone (fst <$> Context.cache w !! "domain_fallback") with
  | Context.DNone => Context.opt_data (Context.known_domain e)
  | Context.DDomain domainname => Context.opt_data domainname
  | Context.DStr s => if String.eqb s "none" then Context.DNone else Context.DStr s
  | Context.DBool b => Context.DBool b
  end.

Definition domain_bound `{Context.Env} (e : Models.Event) (w : Context.world) : bool :=
  negb (Context.is_none (domain_of e w)).

Definition after_domain `{Context.Env} (e : Models.Event) (w : Context.world)
  : Context.world :=
  match default Context.DNone (fst <$> Context.cache w !! "domain_fallback") with
  | Context.DNone =>
      {| Context.cache :=
           <["domain_fallback" := (Context.DDomain (Context.known_domain e), 300)]>
             (Context.cache w);
         Context.session := Context.session w;
         Context.log := Context.log w;
         Context.memo := Context.memo w |}
  | _ => w
  end.

(** The context as it stands after each stage of [_default_context]: the
    general keys, the keys of an authenticated user, the keys of an event,
    the keys of an event with its organizer. *)
Section Stages.
Context `{Context.Env}.

Definition general_context (url : Context.ResolverMatch) : gmap string Context.value :=
  <["global_settings" := Context.VGlobalSettings]>
    (<["talk_hostname" := Context.VStr Context.TALK_HOSTNAME]>
       (<["DEBUG" := Context.VBool Context.DEBUG]>
          (<["django_settings" := Context.VSettings]>
             (<["settings" := Context.VSettings]>
                (<["url_name" := Context.opt_str (Context.url_name url)]> ∅))))).

Definition user_context (r : Models.HttpRequest) (url : Context.ResolverMatch)
  : gmap string Context.value :=
  <["staff_need_to_explain" :=
     Context.VStaffSessions (Context.staff_need_to_explain (Models.user r))]>
    (<["staff_session" :=
        Context.VBool (Context.has_active_staff_session (Models.user r)
                         (Models.session_key r))]>
       (<["nav_items" := Context.VNav (Context.get_global_navigation r)]>
          (general_context url))).

Definition talk_event_created (e : Models.Event) : bool :=
  bool_decide (Models.create_for e = Some Context.EventCreatedFor_BOTH)
  || bool_decide (Models.talk_schedule_public e ≠ None).

Definition event_context (r : Models.HttpRequest) (url : Context.ResolverMatch)
    (e : Models.Event) : gmap string Context.value :=
  let ctx :=
    <["is_talk_event_created" := Context.VBool false]>
      (<["is_video_enabled" := Context.VBool (Context.is_video_enabled e)]>
         (<["talk_edit_url" :=
             Context.VStr (Context.urljoin Context.TALK_HOSTNAME
                             ("/orga/event/" +:+ Models.slug e))]>
            (user_context r url))) in
  if talk_event_created e
  then <["is_talk_event_created" := Context.VBool true]> ctx else ctx.

Definition organizer_context (r : Models.HttpRequest) (url : Context.ResolverMatch)
    (e : Models.Event) (w : Context.world) : gmap string Context.value :=
  <["has_domain" := Context.VBool (domain_bound e w)]>
    (<["nav_items" := Context.VNav (Context.get_event_navigation r)]>
       (event_context r url e)).

End Stages.

(** The log entries a user may see on the event index: no banned action,
    orders and vouchers only with the permission to view them, and, without
    the permission to change the event settings, only entries about orders
    and vouchers, or about products when the user may change those. *)
Definition log_visible `{EventIndex.Env} (request : Models.HttpRequest)
    (organizer : Models.Organizer) (event : Models.Event)
    (l : EventIndex.LogEntry) : Prop :=
  let may p := EventIndex.has_event_permission (Models.user request) organizer event
                 p request = true in
  let ct := EventIndex.content_type l in
  (EventIndex.action_type l ∉ EventIndex.OVERVIEW_BANLIST)
  ∧ (may "can_view_orders" ∨ ct ≠ EventIndex.ct_Order)
  ∧ (may "can_view_vouchers" ∨ ct ≠ EventIndex.ct_Voucher)
  ∧ (may "can_change_event_settings"
     ∨ ct = EventIndex.ct_Voucher ∨ ct = EventIndex.ct_Order
     ∨ (may "can_change_items"
        ∧ (ct = EventIndex.ct_Item ∨ ct = EventIndex.ct_ItemCategory
           ∨ ct = EventIndex.ct_Quota ∨ ct = EventIndex.ct_Question))).

(** The context of a run that returns. *)
Definition ctx_of (run : (Context.exn + gmap string Context.value) * Context.world)
  : gmap string Context.value :=
  match run.1 with inr ctx => ctx | inl _ => ∅ end.

(** The same request without its [subevent] query parameter. *)
Definition without_subevent (request : Models.HttpRequest) : Models.HttpRequest :=
  {| Models.path := Models.path request;
     Models.path_info := Models.path_info request;
     Models.GET := delete "subevent" (Models.GET request);
     Models.user := Models.user request;
     Models.session_key := Models.session_key request;
     Models.timezone := Models.timezone request;
     Models.event := Models.event request;
     Models.organizer := Models.organizer request |}.

End Spec.

(** ** Concrete data: dates, events, requests and environments *)
Module Examples.
Import Models.

(** Days from 1970-01-01 to a date of the proleptic Gregorian calendar, and
    the POSIX time of its midnight (UTC). *)
Definition days_from_civil (y m d : Z) : Z :=
  let y := if m <=? 2 then y - 1 else y in
  let era := y / 400 in
  let yoe := y - era * 400 in
  let doy := (153 * (if 2 <? m then m - 3 else m + 9) + 2) / 5 + d - 1 in
  let doe := yoe * 365 + yoe / 4 - yoe / 100 + doy in
  era * 146097 + doe - 719468.

Definition midnight (y m d : Z) : Z := 86400 * days_from_civil y m d.

Definition single_event (id : Z) (nm : string) (start : option Z) (stop : option Z)
  : Event :=
  {| pk := id; slug := nm; name := nm; has_subevents := false;
     date_from := start; date_to := stop;
     live := false; testmode := false;
     subevents := []; orders := []; requiredaction_set := [];
     create_for := None; talk_schedule_public := None |}.

Definition january_event : Event :=
  single_event 1 "january" (Some (midnight 2024 1 10)) None.

Definition february_event : Event :=
  single_event 2 "february" (Some (midnight 2024 2 1)) None.

(** A series with two dates, the second of them open-ended. *)
Definition series_event : Event :=
  {| pk := 3; slug := "series"; name := "series"; has_subevents := true;
     date_from := Some (midnight 2024 3 1); date_to := None;
     live := true; testmode := false;
     subevents := [ {| sub_pk := 31; sub_date_from := Some (midnight 2024 3 1);
                       sub_date_to := Some (midnight 2024 3 2) |};
                    {| sub_pk := 32; sub_date_from := Some (midnight 2024 4 1);
                       sub_date_to := None |} ];
     orders := [ {| status := STATUS_PAID; order_testmode := false |} ];
     requiredaction_set := [];
     create_for := None; talk_schedule_public := None |}.

Definition organiser : User :=
  {| user_pk := 7; is_authenticated := true; is_staff := false;
     teams := [ {| can_create_events := true |} ] |}.

Definition anonymous : User :=
  {| user_pk := 0; is_authenticated := false; is_staff := false; teams := [] |}.

Definition dashboard_request : HttpRequest :=
  {| path := "/common/"; path_info := "/common/"; GET := ∅;
     user := organiser; session_key := Some "s3ss10n"; timezone := "UTC";
     event := None; organizer := None |}.

Definition big_widget : Dashboards.widget :=
  Dashboards.Widget (Some "a") (Some "big") None None None.
(** The same widgets as the providers' dicts, and a dict whose priority is
    [None]. *)
Definition big_dict : gmap string Dashboards.pyval :=
  {[ "content" := Dashboards.PyStr "a"; "display_size" := Dashboards.PyStr "big" ]}.
Definition urgent_dict : gmap string Dashboards.pyval :=
  {[ "content" := Dashboards.PyStr "d"; "display_size" := Dashboards.PyStr "small";
     "priority" := Dashboards.PyInt 50 ]}.
Definition null_priority_dict : gmap string Dashboards.pyval :=
  {[ "content" := Dashboards.PyStr "e"; "priority" := Dashboards.PyNone ]}.

Definition plain_widget : Dashboards.widget :=
  Dashboards.Widget (Some "b") None None None None.
Definition odd_widget : Dashboards.widget :=
  Dashboards.Widget (Some "c") (Some "huge") (Some 1) None None.
Definition urgent_widget : Dashboards.widget :=
  Dashboards.Widget (Some "d") (Some "small") (Some 50) None None.

Definition dashboard_env : Dashboards.Env :=
  {| Dashboards.db := Dashboards.postgresql;
     Dashboards.get_events_with_any_permission :=
       λ _, [february_event; series_event; january_event];
     Dashboards.user_dashboard_widgets :=
       λ _, [[plain_widget; big_widget]; [odd_widget; urgent_widget]];
     Dashboards.event_html := λ _ a, "<div class=name>" +:+ name (Dashboards.ev a) +:+ "</div>";
     Dashboards.SITE_URL := "https://tickets.example.org";
     Dashboards.TALK_HOSTNAME := "https://talks.example.org/" |}.

(** [str.strip] and [int] on ASCII text: optional blanks, an optional sign,
    then digits, with single underscores allowed between digits. *)
Definition is_space (c : ascii) : bool :=
  let n := nat_of_ascii c in
  ((9 <=? n) && (n <=? 13) || (28 <=? n) && (n <=? 32))%nat.

Fixpoint lstrip (s : string) : string :=
  match s with
  | String c s' => if is_space c then lstrip s' else s
  | EmptyString => EmptyString
  end.

Definition strip (s : string) : string :=
  String.rev (lstrip (String.rev (lstrip s))).

Definition digit (c : ascii) : option Z :=
  let n := Z.of_nat (nat_of_ascii c) in
  if (48 <=? n) && (n <=? 57) then Some (n - 48) else None.

(** The digits at the front of [s]: their value, their number, and what
    follows them; [None] for an underscore that does not stand between two
    digits, and when there is no digit. *)
Fixpoint digits (acc : Z) (count : nat) (after_digit : bool) (s : string)
  : option (Z * nat * string) :=
  match s with
  | EmptyString => if after_digit then Some (acc, count, s) else None
  | String c s' =>
      match digit c with
      | Some d => digits (10 * acc + d) (S count) true s'
      | None =>
          if Ascii.eqb c "_" then
            if after_digit then digits acc count false s' else None
          else if after_digit then Some (acc, count, s) else None
      end
  end.

(** [repr] of a string of ASCII characters: in single quotes, unless it
    holds a single quote and no double quote. *)
Definition single_quote : ascii := ascii_of_nat 39.
Definition double_quote : ascii := ascii_of_nat 34.
Definition backslash : ascii := ascii_of_nat 92.

Fixpoint contains (c : ascii) (s : string) : bool :=
  match s with
  | EmptyString => false
  | String d s' => Ascii.eqb c d || contains c s'
  end.

Definition hex_digit (n : nat) : ascii :=
  ascii_of_nat (if (n <? 10)%nat then 48 + n else 87 + n).

Definition escape (quote c : ascii) : string :=
  let n := nat_of_ascii c in
  if Ascii.eqb c backslash || Ascii.eqb c quote then String backslash (String c "")
  else if (n =? 9)%nat then String backslash "t"
  else if (n =? 10)%nat then String backslash "n"
  else if (n =? 13)%nat then String backslash "r"
  else if (n <? 32)%nat || (n =? 127)%nat
  then String backslash
         (String "x" (String (hex_digit (n / 16)) (String (hex_digit (n mod 16)) "")))
  else String c "".

Fixpoint escaped (quote : ascii) (s : string) : string :=
  match s with
  | EmptyString => EmptyString
  | String c s' => escape quote c +:+ escaped quote s'
  end.

Definition repr (s : string) : string :=
  let quote :=
    if contains single_quote s && negb (contains double_quote s)
    then double_quote else single_quote in
  String quote (escaped quote s) +:+ String quote "".

(** [int] on a string of ASCII characters: the number, or the message of the
    [ValueError].  A literal of more than 4300 digits is refused with a
    message of its own. *)
Definition ascii_int (s : string) : string + Z :=
  let invalid := inl ("invalid literal for int() with base 10: " +:+ repr s) in
  let '(negative, r) :=
    match strip s with
    | String "+" r => (false, r)
    | String "-" r => (true, r)
    | r => (false, r)
    end in
  match digits 0 0 false r with
  | Some (n, count, rest) =>
      if (4300 <? count)%nat then
        inl ("Exceeds the limit (4300 digits) for integer string conversion: value has "
             +:+ pretty count
             +:+ " digits; use sys.set_int_max_str_digits() to increase the limit")
      else if String.eqb rest "" then inr (if negative then - n else n)
      else invalid
  | None => invalid
  end.

(** The numbers of a 64-bit signed column. *)
Definition int64 (n : Z) : bool := (- 2 ^ 63 <=? n) && (n <? 2 ^ 63).

(** An environment with one route prefix; [can_view] is the answer of the
    permission oracle. *)
Definition context_env (can_view : bool) : Context.Env :=
  {| Context.resolve := λ p, if String.prefix "/common" p
                             then Some {| Context.url_name := Some "dashboard" |}
                             else None;
     Context.get_script_prefix := "/";
     Context.DEBUG := false;
     Context.TALK_HOSTNAME := "https://talks.example.org";
     Context.PRETIX_ADMIN_AUDIT_COMMENTS := true;
     Context.get_global_navigation := λ _, ["Dashboard"];
     Context.get_event_navigation := λ _, ["Dashboard"; "Settings"];
     Context.has_active_staff_session := λ _ _, false;
     Context.StaffSession_objects := [];
     Context.urljoin := λ base url, base +:+ url;
     Context.is_video_enabled := λ _, false;
     Context.known_domain := λ e, if live e then None else Some "events.example.org";
     Context.EventCreatedFor_BOTH := "all";
     Context.has_event_permission := λ _ _ _ _ _, can_view;
     Context.py_int := ascii_int;
     Context.py_strip := strip;
     Context.db_int := int64 |}.

(** A live event that has left test mode and still has a test-mode order. *)
Definition live_event : Event :=
  {| pk := 4; slug := "live"; name := "live"; has_subevents := false;
     date_from := Some (midnight 2024 5 1); date_to := None;
     live := true; testmode := false;
     subevents := [];
     orders := [ {| status := STATUS_PAID; order_testmode := true |} ];
     requiredaction_set := [];
     create_for := None; talk_schedule_public := None |}.

(** An event in test mode, not yet live. *)
Definition testing_event : Event :=
  {| pk := 5; slug := "testing"; name := "testing"; has_subevents := false;
     date_from := Some (midnight 2024 6 1); date_to := None;
     live := false; testmode := true;
     subevents := [];
     orders := [ {| status := STATUS_PENDING; order_testmode := true |} ];
     requiredaction_set := [];
     create_for := None; talk_schedule_public := None |}.

Definition event_request (u : User) (e : Event) (query : gmap string string)
  : HttpRequest :=
  {| path := "/common/event/demo/" +:+ slug e +:+ "/";
     path_info := "/common/event/demo/" +:+ slug e +:+ "/";
     GET := query;
     user := u; session_key := Some "s3ss10n"; timezone := "UTC";
     event := Some e; organizer := Some {| organizer_slug := "demo" |} |}.

(** [?subevent=abc], from the organiser and from an anonymous visitor. *)
Definition malformed_request : HttpRequest :=
  event_request organiser testing_event {[ "subevent" := "abc" ]}.

Definition anonymous_malformed_request : HttpRequest :=
  event_request anonymous live_event {[ "subevent" := "abc" ]}.

Definition control_request : HttpRequest :=
  {| path := "/control/"; path_info := "/control/"; GET := ∅;
     user := organiser; session_key := Some "s3ss10n"; timezone := "UTC";
     event := None; organizer := None |}.

Definition fresh_world : Context.world :=
  {| Context.cache := ∅; Context.session := ∅; Context.log := [];
     Context.memo := None |}.

(** The cache already says that there are test-mode orders. *)
Definition cached_world : Context.world :=
  {| Context.cache := {[ "complain_testmode_orders" := (Context.DBool true, 30) ]};
     Context.session := ∅; Context.log := []; Context.memo := None |}.

(** A request that selects the first date of the series, one for a date
    that does not exist, and one with a malformed number. *)
Definition selection_request : HttpRequest :=
  event_request organiser series_event {[ "subevent" := " 31 " ]}.

Definition missing_selection_request : HttpRequest :=
  event_request organiser series_event {[ "subevent" := "99" ]}.

Definition malformed_selection_request : HttpRequest :=
  event_request organiser series_event {[ "subevent" := "abc" ]}.

(** A number that no 64-bit column holds. *)
Definition huge_selection_request : HttpRequest :=
  event_request organiser series_event {[ "subevent" := "99999999999999999999" ]}.

(** A preview of the event in test mode, which has a domain. *)
Definition preview_request : HttpRequest := event_request organiser testing_event ∅.

Definition demo_organizer : Organizer := {| organizer_slug := "demo" |}.

Definition order_log : EventIndex.LogEntry :=
  {| EventIndex.log_pk := 1; EventIndex.action_type := "pretix.event.order.placed";
     EventIndex.content_type := EventIndex.ct_Order; EventIndex.datetime := 10 |}.
Definition voucher_log : EventIndex.LogEntry :=
  {| EventIndex.log_pk := 2; EventIndex.action_type := "pretix.voucher.added";
     EventIndex.content_type := EventIndex.ct_Voucher; EventIndex.datetime := 30 |}.
Definition item_log : EventIndex.LogEntry :=
  {| EventIndex.log_pk := 3; EventIndex.action_type := "pretix.event.item.changed";
     EventIndex.content_type := EventIndex.ct_Item; EventIndex.datetime := 20 |}.
Definition mail_log : EventIndex.LogEntry :=
  {| EventIndex.log_pk := 4; EventIndex.action_type := "pretix.event.order.email.sent";
     EventIndex.content_type := EventIndex.ct_Order; EventIndex.datetime := 40 |}.
Definition settings_log : EventIndex.LogEntry :=
  {| EventIndex.log_pk := 5; EventIndex.action_type := "pretix.event.settings";
     EventIndex.content_type := EventIndex.ct_other "event"; EventIndex.datetime := 50 |}.

(** An environment of the event index in which the user holds the
    permissions [granted]. *)
Definition index_env (granted : list string) : EventIndex.Env :=
  {| EventIndex.has_event_permission := λ _ _ _ p _, bool_decide (p ∈ granted);
     EventIndex.event_dashboard_widgets := λ _ _ _, [[plain_widget]; [urgent_widget]];
     EventIndex.logentry_set :=
       λ _, [order_log; voucher_log; item_log; mail_log; settings_log];
     EventIndex.OVERVIEW_BANLIST := ["pretix.event.order.email.sent"];
     EventIndex.order_rows :=
       λ _, [ {| EventIndex.row_status := STATUS_PENDING;
                 EventIndex.require_approval := true;
                 EventIndex.pending_sum_t := 1000;
                 EventIndex.pending_sum_rc := 0 |};
              {| EventIndex.row_status := STATUS_PAID;
                 EventIndex.require_approval := false;
                 EventIndex.pending_sum_t := -500;
                 EventIndex.pending_sum_rc := -500 |} ];
     EventIndex.refunds := λ _, [EventIndex.REFUND_STATE_CREATED];
     EventIndex.cancellation_requests := λ _, [1];
     EventIndex.event_comment := λ _, "";
     EventIndex.display := λ _ _, "<p>action</p>";
     EventIndex.timeline_for_event := λ _ _, [];
     EventIndex.local_date := λ _ t, t / 86400;
     EventIndex.py_int := λ i, if ascii_int i is inr n then Some n else None;
     EventIndex.py_repr := repr;
     EventIndex.db_int := int64 |}.

(** The series, with two actions waiting and one done. *)
Definition busy_event : Event :=
  {| pk := 6; slug := "busy"; name := "busy"; has_subevents := true;
     date_from := Some (midnight 2024 3 1); date_to := None;
     live := true; testmode := false;
     subevents := subevents series_event;
     orders := [];
     requiredaction_set := [ {| done := false |}; {| done := true |}; {| done := false |} ];
     create_for := None; talk_schedule_public := None |}.

End Examples.

(** * Properties *)

(** ** The stable sort *)
Module StableSortFacts.
Import StableSort.
Section Facts.
Context {A : Type} (before : A → A → bool) `{!StrictWeak before}.

Lemma insert_sorted_perm x l : insert_sorted before x l ≡ₚ x :: l.
Proof.
  induction l as [|y l IH]; simpl; [done|].
  destruct (before y x); [|done].
  rewrite IH. apply Permutation_swap.
Qed.

Lemma stable_sort_perm l : stable_sort before l ≡ₚ l.
Proof.
  induction l as [|x l IH]; simpl; [done|].
  rewrite insert_sorted_perm. by f_equiv.
Qed.

Lemma before_asym a b : before a b = true → before b a = false.
Proof.
  intros Hab. destruct (before b a) eqn:Hba; [|done].
  pose proof (before_trans before _ _ _ Hab Hba) as Haa.
  by rewrite (before_irrefl before) in Haa.
Qed.

Lemma insert_sorted_in_order x l :
  in_order before l → in_order before (insert_sorted before x l).
Proof.
  unfold in_order in *. induction 1 as [|y l Hl IH Hy]; simpl.
  - repeat constructor.
  - destruct (before y x) eqn:Hyx.
    + constructor; [done|].
      rewrite insert_sorted_perm. constructor; [|done].
      by apply before_asym.
    + constructor; [by constructor|].
      constructor; [done|].
      eapply Forall_impl; [exact Hy|]. simpl. intros z Hz.
      by apply (before_negtrans before z y x).
Qed.

Lemma stable_sort_in_order l : in_order before (stable_sort before l).
Proof.
  induction l as [|x l IH]; simpl; [constructor|].
  by apply insert_sorted_in_order.
Qed.

(** Inserting [x] changes a selection of the list only by [x] itself, as
    long as [x], when selected, jumps over unselected elements only. *)
Lemma insert_sorted_filter (P : A → bool) x l :
  (P x = true → ∀ y, before y x = true → P y = false) →
  List.filter P (insert_sorted before x l) = List.filter P (x :: l).
Proof.
  intros HP. induction l as [|y l IH]; [done|].
  cbn [insert_sorted]. destruct (before y x) eqn:Hyx; [|done].
  cbn [List.filter] in *. rewrite IH.
  destruct (P x) eqn:Hx; [|done].
  by rewrite (HP eq_refl y Hyx).
Qed.

Lemma tied_jump c x y :
  tied before c x = true → before y x = true → tied before c y = false.
Proof.
  unfold tied. intros [Hcx Hxc]%andb_true_iff Hyx.
  apply negb_true_iff in Hcx, Hxc.
  destruct (before y c) eqn:Hyc; [by rewrite andb_false_r|].
  by rewrite (before_negtrans before y c x) in Hyx.
Qed.

(** A selection that never holds of both an element and one that goes
    before it comes out of the sort in the order it went in. *)
Lemma stable_sort_filter (P : A → bool) l :
  (∀ x y, P x = true → before y x = true → P y = false) →
  List.filter P (stable_sort before l) = List.filter P l.
Proof.
  intros HP. induction l as [|x l IH]; [done|].
  cbn [stable_sort foldr]. rewrite insert_sorted_filter by eauto.
  cbn [List.filter]. fold (stable_sort before l). by rewrite IH.
Qed.

(** Stability: the elements tied with [c] come out in the order they came in. *)
Lemma stable_sort_stable c l :
  List.filter (tied before c) (stable_sort before l) = List.filter (tied before c) l.
Proof. apply stable_sort_filter. intros x y. apply tied_jump. Qed.

Lemma in_order_lookup l (i j : nat) a b :
  in_order before l → (i < j)%nat → l !! i = Some a → l !! j = Some b → before b a = false.
Proof.
  unfold in_order in *. intros Hl. revert i j a b.
  induction Hl as [|x l Hl IH Hx]; intros i j a b Hij Hi Hj; [done|].
  destruct j as [|j]; [lia|]. simpl in Hj.
  destruct i as [|i]; simpl in Hi.
  - simplify_eq. rewrite Forall_forall in Hx. apply Hx.
    by eapply list_elem_of_lookup_2.
  - apply (IH i j); [lia|done..].
Qed.

(** In the sorted list, whatever goes before something else stands before it. *)
Lemma stable_sort_precedes l a b :
  before a b = true → precedes (stable_sort before l) a b.
Proof.
  intros Hab i j Hi Hj.
  destruct (decide (i < j)%nat) as [|Hge]; [done|]. exfalso.
  destruct (decide (i = j)) as [->|Hne].
  - simplify_eq. by rewrite (before_irrefl before) in Hab.
  - assert (before a b = false) as Hf; [|congruence].
    eapply (in_order_lookup _ j i); [apply stable_sort_in_order|lia|done..].
Qed.

End Facts.
(** The sort commutes with a map, and depends on its test only. *)
Lemma insert_sorted_fmap {A B} (f : A → B) (before : B → B → bool) x l :
  insert_sorted before (f x) (f <$> l)
  = f <$> insert_sorted (λ a b, before (f a) (f b)) x l.
Proof.
  induction l as [|y l IH]; [done|].
  cbn [fmap list_fmap insert_sorted]. change (list_fmap A B f l) with (f <$> l).
  destruct (before (f y) (f x)); [|done].
  cbn [fmap list_fmap]. by rewrite IH.
Qed.

Lemma stable_sort_fmap {A B} (f : A → B) (before : B → B → bool) l :
  stable_sort before (f <$> l) = f <$> stable_sort (λ a b, before (f a) (f b)) l.
Proof.
  induction l as [|x l IH]; [done|].
  cbn [fmap list_fmap stable_sort foldr]. change (list_fmap A B f l) with (f <$> l).
  fold (stable_sort before (f <$> l)). rewrite IH. apply insert_sorted_fmap.
Qed.

Lemma insert_sorted_ext {A} (before before' : A → A → bool) x l :
  (∀ a b, before a b = before' a b) →
  insert_sorted before x l = insert_sorted before' x l.
Proof.
  intros Hext. induction l as [|y l IH]; simpl; [done|]. by rewrite Hext, IH.
Qed.

Lemma stable_sort_ext {A} (before before' : A → A → bool) l :
  (∀ a b, before a b = before' a b) → stable_sort before l = stable_sort before' l.
Proof.
  intros Hext. induction l as [|x l IH]; simpl; [done|].
  fold (stable_sort before l) (stable_sort before' l).
  rewrite IH. by apply insert_sorted_ext.
Qed.

Lemma filter_fmap {A B} (f : A → B) (P : B → bool) l :
  List.filter P (f <$> l) = f <$> List.filter (λ a, P (f a)) l.
Proof.
  induction l as [|x l IH]; [done|].
  cbn [fmap list_fmap List.filter]. change (list_fmap A B f l) with (f <$> l).
  destruct (P (f x)); cbn [fmap list_fmap]; by rewrite IH.
Qed.

End StableSortFacts.

(** ** views/dashboards.py: the widget ranker *)
Module RankerFacts.
Import StableSort StableSortFacts Models Dashboards.

Lemma tuple_lt_true k1 k2 :
  tuple_lt k1 k2 = true ↔ k1.1 < k2.1 ∨ (k1.1 = k2.1 ∧ k1.2 < k2.2).
Proof.
  unfold tuple_lt. rewrite orb_true_iff, andb_true_iff, !Z.ltb_lt, Z.eqb_eq. done.
Qed.

Lemma tuple_lt_false k1 k2 :
  tuple_lt k1 k2 = false ↔ k2.1 < k1.1 ∨ (k2.1 = k1.1 ∧ k2.2 ≤ k1.2).
Proof. rewrite <- not_true_iff_false, tuple_lt_true. lia. Qed.

(** The test [sorted] sorts by is a strict weak order in both directions. *)
Lemma sorted_strict_weak {A} (key : A → Z * Z) (reverse : bool) :
  StrictWeak (λ a b, if reverse then tuple_lt (key b) (key a)
                     else tuple_lt (key a) (key b)).
Proof.
  destruct reverse; split; intros *;
    rewrite ?tuple_lt_true, ?tuple_lt_false; lia.
Qed.

(** Under [sorted], two elements are tied exactly when their keys are equal. *)
Lemma sorted_tied {A} (key : A → Z * Z) (reverse : bool) a b :
  tied (λ a b, if reverse then tuple_lt (key b) (key a)
               else tuple_lt (key a) (key b)) a b = bool_decide (key a = key b).
Proof.
  unfold tied. apply eq_true_iff_eq.
  rewrite andb_true_iff, !negb_true_iff, bool_decide_eq_true.
  destruct (key a) as [p t] eqn:Ha, (key b) as [q u] eqn:Hb.
  destruct reverse; rewrite !tuple_lt_false; simpl;
    (split; [intros; f_equal; lia | intros [= -> ->]; lia]).
Qed.

Lemma mapping_lookup (s : string) :
  mapping !! s =
    if decide (s = "small") then Some 1
    else if decide (s = "big") then Some 2
    else if decide (s = "full") then Some 3
    else None.
Proof.
  unfold mapping. rewrite !lookup_insert, lookup_empty.
  repeat case_decide; simplify_eq; done.
Qed.

Lemma StronglySorted_weaken {A} (R1 R2 : A → A → Prop) l :
  (∀ a b, R1 a b → R2 a b) → StronglySorted R1 l → StronglySorted R2 l.
Proof.
  intros HR. induction 1 as [|x l Hl IH Hx]; constructor; [done|].
  eapply Forall_impl; [exact Hx|]. intros y. apply HR.
Qed.

Lemma rearrange_in_order widgets :
  in_order (λ a b, tuple_lt (sort_key b) (sort_key a)) (rearrange widgets).
Proof.
  apply (stable_sort_in_order _ (StrictWeak0 := sorted_strict_weak sort_key true)).
Qed.

(** *** The sort on the providers' dicts *)

Lemma sort_key_py_descriptor (element : gmap string pyval) :
  descriptor element →
  sort_key_py element
  = Some (PyInt (sort_key (as_widget element)).1, (sort_key (as_widget element)).2).
Proof.
  intros [[Hp|[n Hp]] [Hs|[size Hs]]];
    unfold sort_key_py, sort_key, as_widget; rewrite Hp, Hs; reflexivity.
Qed.

Lemma tuple_lt_py_int (p q t u : Z) :
  tuple_lt_py (PyInt p, t) (PyInt q, u) = Some (tuple_lt (p, t) (q, u)).
Proof.
  unfold tuple_lt_py, tuple_lt, py_eq, py_lt. simpl.
  destruct (Z.eqb_spec p q) as [->|Hne]; simpl.
  - by rewrite Z.ltb_irrefl.
  - by rewrite orb_false_r.
Qed.

(** Where no test raises, the sort on the dicts is the sort. *)
Lemma insert_sorted_py_total {A} (before_py : A → A → option bool)
    (before : A → A → bool) (P : A → Prop) (x : A) (l : list A) :
  (∀ a b, P a → P b → before_py a b = Some (before a b)) →
  P x → Forall P l →
  insert_sorted_py before_py x l = Some (insert_sorted before x l).
Proof.
  intros Hbefore Hx. induction 1 as [|y l Hy Hl IH]; [done|].
  simpl. rewrite (Hbefore y x) by done. simpl.
  destruct (before y x); [|done]. by rewrite IH.
Qed.

Lemma stable_sort_py_total {A} (before_py : A → A → option bool)
    (before : A → A → bool) (P : A → Prop) (l : list A) :
  (∀ a b, P a → P b → before_py a b = Some (before a b)) →
  Forall P l →
  stable_sort_py before_py l = Some (stable_sort before l).
Proof.
  intros Hbefore. induction 1 as [|x l Hx Hl IH]; [done|].
  cbn [stable_sort_py stable_sort foldr].
  fold (stable_sort_py before_py l) (stable_sort before l). rewrite IH. simpl.
  apply (insert_sorted_py_total _ _ P); [done..|].
  rewrite Forall_forall in *. intros a Ha. apply Hl.
  by rewrite <- (stable_sort_perm before l).
Qed.

Lemma rearrange_py_descriptors (elements : list (gmap string pyval)) :
  Forall descriptor elements →
  ∃ out, rearrange_py elements = Some out
         ∧ out ≡ₚ elements
         ∧ as_widget <$> out = rearrange (as_widget <$> elements).
Proof.
  intros Hd.
  set (key_of := λ d : gmap string pyval,
         (PyInt (sort_key (as_widget d)).1, (sort_key (as_widget d)).2)).
  assert (mapM sort_key_py elements = Some (key_of <$> elements)) as Hkeys.
  { induction Hd as [|d l Hd Hl IH]; [done|].
    cbn [mapM]. rewrite (sort_key_py_descriptor d Hd), IH. done. }
  assert (∀ l : list (gmap string pyval),
            zip (key_of <$> l) l = (λ d, (key_of d, d)) <$> l) as Hzip.
  { induction l as [|d l IH]; [done|]. cbn [fmap list_fmap zip zip_with].
    f_equal. exact IH. }
  unfold rearrange_py. rewrite Hkeys. simpl. rewrite Hzip.
  rewrite (stable_sort_py_total _
             (λ a b, tuple_lt (sort_key (as_widget b.2)) (sort_key (as_widget a.2)))
             (λ a, a.1 = key_of a.2)).
  - simpl. eexists. split; [done|]. split.
    { rewrite stable_sort_perm, <- list_fmap_compose.
      change (snd ∘ _) with (@id (gmap string pyval)). by rewrite list_fmap_id. }
    unfold rearrange, sorted.
    rewrite (stable_sort_fmap as_widget).
    rewrite <- (stable_sort_fmap snd
                  (λ a b, tuple_lt (sort_key (as_widget b)) (sort_key (as_widget a)))).
    rewrite <- list_fmap_compose.
    change (snd ∘ _) with (@id (gmap string pyval)). by rewrite list_fmap_id.
  - intros [ka a] [kb b]. simpl. intros -> ->. unfold key_of.
    rewrite tuple_lt_py_int.
    by destruct (sort_key (as_widget a)), (sort_key (as_widget b)).
  - apply Forall_fmap, Forall_true. done.
Qed.

(** C1.  [rearrange] returns the widgets it was given (all of them, each as
    often as it came in) in descending order of the pair (priority, size
    tier): the priority is the descriptor's, or 1 when it has none; the tier
    is 1 for ['small'], 2 for ['big'], 3 for ['full'], and 1 for a missing or
    any other display size.  It has no error condition: on the dicts
    themselves, where computing a key or comparing two keys can raise,
    neither does for descriptor records (an integer priority and a string
    display size, each possibly missing), and the sort returns what
    [rearrange] returns. *)
Theorem rearrange_descending (widgets : list widget) :
  let prio w := match priority w with Some p => p | None => 1 end in
  let tier w :=
    match display_size w with
    | None => 1
    | Some s => if decide (s = "small") then 1
                else if decide (s = "big") then 2
                else if decide (s = "full") then 3
                else 1
    end in
  (∀ w, sort_key w = (prio w, tier w))
  ∧ StronglySorted (λ a b, prio b < prio a ∨ (prio b = prio a ∧ tier b ≤ tier a))
      (rearrange widgets)
  ∧ rearrange widgets ≡ₚ widgets
  ∧ (∀ elements, Forall descriptor elements → as_widget <$> elements = widgets →
       ∃ out, rearrange_py elements = Some out
              ∧ out ≡ₚ elements
              ∧ as_widget <$> out = rearrange widgets).
Proof.
  intros prio tier.
  assert (∀ w, sort_key w = (prio w, tier w)) as Hkey.
  { intros w. unfold sort_key, prio, tier. f_equal.
    destruct (display_size w) as [s|]; simpl; [|done].
    rewrite mapping_lookup. by repeat case_decide. }
  split_and!; [done| |apply stable_sort_perm|].
  - eapply StronglySorted_weaken; [|apply rearrange_in_order].
    intros a b Hab. simpl in Hab.
    apply tuple_lt_false in Hab. by rewrite !Hkey in Hab.
  - intros elements Hd <-. by apply rearrange_py_descriptors.
Qed.

Lemma rearrange_descending_witness :
  Forall descriptor [Examples.big_dict; Examples.urgent_dict]
  ∧ ∃ out, rearrange_py [Examples.big_dict; Examples.urgent_dict] = Some out
           ∧ out ≡ₚ [Examples.big_dict; Examples.urgent_dict]
           ∧ as_widget <$> out
             = [ Widget (Some "d") (Some "small") (Some 50) None None;
                 Widget (Some "a") (Some "big") None None None ].
Proof.
  assert (Forall descriptor [Examples.big_dict; Examples.urgent_dict]) as Hd.
  { apply Forall_cons. split; [split; [by left|right; by eexists]|].
    apply Forall_cons. split; [split; right; by eexists|]. constructor. }
  split; [exact Hd|].
  destruct (rearrange_descending (as_widget <$> [Examples.big_dict; Examples.urgent_dict]))
    as (_ & _ & _ & Hpy).
  exact (Hpy _ Hd eq_refl).
Defined.

(** On dicts that are no descriptor records the sort can raise: [None] and
    an integer do not compare. *)
Lemma null_priority_raises :
  rearrange_py [Examples.big_dict; Examples.null_priority_dict] = None.
Proof. reflexivity. Qed.

(** C2.  In the output of [rearrange] a widget of higher priority stands
    before every widget of lower priority, and the widgets that share a sort
    key come out in the order they came in. *)
Theorem rearrange_priority_stable (widgets : list widget) :
  (∀ a b, default 1 (priority b) < default 1 (priority a) →
          precedes (rearrange widgets) a b) ∧
  (∀ k, List.filter (λ w, bool_decide (sort_key w = k)) (rearrange widgets)
        = List.filter (λ w, bool_decide (sort_key w = k)) widgets).
Proof.
  split.
  - intros a b Hab.
    apply (stable_sort_precedes _ (StrictWeak0 := sorted_strict_weak sort_key true)).
    apply tuple_lt_true. left. done.
  - intros k. apply stable_sort_filter.
    intros x y [= <-]%bool_decide_eq_true Hyx%tuple_lt_true.
    apply bool_decide_eq_false. intros Heq. rewrite Heq in Hyx. lia.
Qed.

(** C10.  The output of [rearrange] is a permutation of its input: the same
    descriptors, each as often as it came in. *)
Theorem rearrange_permutation (widgets : list widget) :
  rearrange widgets ≡ₚ widgets.
Proof. apply stable_sort_perm. Qed.

End RankerFacts.

(** ** views/dashboards.py: the event query and the event buckets *)
Module QueryFacts.
Import StableSort StableSortFacts Models Dashboards Spec.


(** [Max] is the largest of the non-null values, and NULL when there is none. *)
Lemma Max_None col : Max col = None ↔ Forall (λ o, o = None) col.
Proof.
  induction col as [|[x|] col IH]; simpl.
  - split; [constructor|done].
  - split; [by destruct (Max col)|by inversion 1].
  - rewrite IH. split; [by constructor|by inversion 1].
Qed.

Lemma Max_Some_1 col m :
  Max col = Some m → Some m ∈ col ∧ ∀ x, Some x ∈ col → x ≤ m.
Proof.
  revert m. induction col as [|o col IH]; intros m; [done|].
  simpl. destruct (Max col) as [n|] eqn:Hn.
  - destruct (IH n eq_refl) as [Hin Hle].
    destruct o as [a|]; simpl; intros [= <-].
    + split.
      * destruct (Z.max_spec a n) as [[_ ->]|[_ ->]];
          [apply elem_of_cons; by right|apply elem_of_cons; by left].
      * intros x [?|Hx]%elem_of_cons; [simplify_eq; lia|].
        specialize (Hle x Hx). lia.
    + split; [apply elem_of_cons; by right|].
      intros x [?|Hx]%elem_of_cons; [done|]. by apply Hle.
  - apply Max_None in Hn. rewrite Forall_forall in Hn.
    destruct o as [a|]; simpl; intros [= <-].
    split; [apply elem_of_cons; by left|].
    intros x [?|Hx]%elem_of_cons; [simplify_eq; lia|].
    by specialize (Hn _ Hx).
Qed.

Lemma Max_Some col m :
  Max col = Some m ↔ Some m ∈ col ∧ ∀ x, Some x ∈ col → x ≤ m.
Proof.
  split; [apply Max_Some_1|]. intros [Hin Hle].
  destruct (Max col) as [k|] eqn:Hk.
  - destruct (Max_Some_1 _ _ Hk) as [Hin' Hle'].
    f_equal. apply Z.le_antisymm; [by apply Hle|by apply Hle'].
  - apply Max_None in Hk. rewrite Forall_forall in Hk.
    by specialize (Hk _ Hin).
Qed.

(** *** [ORDER BY] is a strict weak order on the rows *)

Ltac cmp_cases v :=
  unfold cmp_col, cmp_null;
  repeat match goal with
         | d : direction |- _ => destruct d
         | x : option Z |- _ => destruct x
         end;
  destruct (nulls_largest v); simpl;
  rewrite ?Z.compare_eq_iff, ?Z.compare_lt_iff.

Lemma cmp_col_refl v d x : cmp_col v d x x = Eq.
Proof. cmp_cases v; done. Qed.

Lemma cmp_col_eq v d x y : cmp_col v d x y = Eq → x = y.
Proof. cmp_cases v; intros; congruence. Qed.

Lemma cmp_col_antisym v d x y : cmp_col v d y x = CompOpp (cmp_col v d x y).
Proof. cmp_cases v; try done; apply Z.compare_antisym. Qed.

Lemma cmp_col_trans v d x y z :
  cmp_col v d x y = Lt → cmp_col v d y z = Lt → cmp_col v d x z = Lt.
Proof. cmp_cases v; try done; lia. Qed.

Section Rows.
Context {R : Type} (v : vendor) (cols : list (direction * (R → option Z))).

Lemma cmp_rows_refl a : cmp_rows v cols a a = Eq.
Proof.
  induction cols as [|[d f] cs IH]; simpl; [done|].
  by rewrite cmp_col_refl.
Qed.

Lemma cmp_rows_antisym a b : cmp_rows v cols b a = CompOpp (cmp_rows v cols a b).
Proof.
  induction cols as [|[d f] cs IH]; simpl; [done|].
  rewrite (cmp_col_antisym v d (f a) (f b)).
  by destruct (cmp_col v d (f a) (f b)).
Qed.

Lemma cmp_rows_trans a b c :
  cmp_rows v cols a b = Lt → cmp_rows v cols b c = Lt → cmp_rows v cols a c = Lt.
Proof.
  induction cols as [|[d f] cs IH]; simpl; [done|].
  destruct (cmp_col v d (f a) (f b)) eqn:Hab; [|intros _|done].
  - apply cmp_col_eq in Hab as ->.
    destruct (cmp_col v d (f b) (f c)); auto.
  - destruct (cmp_col v d (f b) (f c)) eqn:Hbc; [intros _| |done].
    + apply cmp_col_eq in Hbc as <-. by rewrite Hab.
    + by rewrite (cmp_col_trans v d _ _ _ Hab Hbc).
Qed.

Lemma cmp_rows_le_trans a b c :
  cmp_rows v cols a b ≠ Gt → cmp_rows v cols b c ≠ Gt → cmp_rows v cols a c ≠ Gt.
Proof.
  induction cols as [|[d f] cs IH]; simpl; [done|].
  destruct (cmp_col v d (f a) (f b)) eqn:Hab; [|intros _|done].
  - apply cmp_col_eq in Hab as ->.
    destruct (cmp_col v d (f b) (f c)); auto.
  - destruct (cmp_col v d (f b) (f c)) eqn:Hbc; [intros _| |done].
    + apply cmp_col_eq in Hbc as <-. by rewrite Hab.
    + by rewrite (cmp_col_trans v d _ _ _ Hab Hbc).
Qed.

Lemma cmp_rows_strict_weak :
  StrictWeak (λ a b : R, if cmp_rows v cols a b is Lt then true else false).
Proof.
  split.
  - intros a. by rewrite cmp_rows_refl.
  - intros a b c Hab Hbc.
    destruct (cmp_rows v cols a b) eqn:E1; try done.
    destruct (cmp_rows v cols b c) eqn:E2; try done.
    by rewrite (cmp_rows_trans _ _ _ E1 E2).
  - intros a b c Hab Hbc.
    assert (cmp_rows v cols c a ≠ Gt) as Hca.
    { apply (cmp_rows_le_trans c b a); rewrite cmp_rows_antisym;
        [by destruct (cmp_rows v cols b c)|by destruct (cmp_rows v cols a b)]. }
    rewrite cmp_rows_antisym in Hca. by destruct (cmp_rows v cols a c).
Qed.

End Rows.


(** *** The annotations *)



(** *** The buckets *)


(** An ordered bucket holds the rows that pass its filter, all of them and
    no other. *)
Lemma order_by_perm `{Env} (fields : list string) (qs : list annotated_event) :
  order_by fields qs ≡ₚ qs.
Proof. apply stable_sort_perm. Qed.




(** C6.  [widgets_for_event_qs] never yields more than [nmax] widgets,
    whatever the size of the query; [organiser_dashboard] and
    [user_index_widgets_lazy] call it with 7 for the upcoming events and
    with 8 for the past events and for the series, so these buckets hold at
    most 7, 8 and 8 widgets. *)
Theorem bucket_caps `{Env} (request : HttpRequest) (now1 now2 now3 now4 : Z) :
  (∀ qs u nmax lazy,
     length (widgets_for_event_qs request qs u nmax lazy) = Nat.min nmax (length qs)
     ∧ (length (widgets_for_event_qs request qs u nmax lazy) ≤ nmax)%nat)
  ∧ (let ctx := organiser_dashboard request now1 now2 now3 now4 in
     ctx_upcoming ctx
       = widgets_for_event_qs request (upcoming_qs request true now1 now2)
           (user request) 7 true
     ∧ ctx_past ctx
       = widgets_for_event_qs request (past_qs request true now3 now4)
           (user request) 8 true
     ∧ ctx_series ctx
       = widgets_for_event_qs request (series_qs request true) (user request) 8 true
     ∧ (length (ctx_upcoming ctx) ≤ 7 ∧ length (ctx_past ctx) ≤ 8
        ∧ length (ctx_series ctx) ≤ 8)%nat)
  ∧ (∃ up pa se,
       user_index_widgets_lazy request now1 now2 now3 now4 = (up ++ pa ++ se)%list
       ∧ up = widgets_for_event_qs request (upcoming_qs request false now1 now2)
                (user request) 7 false
       ∧ pa = widgets_for_event_qs request (past_qs request false now3 now4)
                (user request) 8 false
       ∧ se = widgets_for_event_qs request (series_qs request false) (user request) 8 false
       ∧ (length up ≤ 7 ∧ length pa ≤ 8 ∧ length se ≤ 8)%nat).
Proof.
  assert (∀ qs u nmax lazy,
            length (widgets_for_event_qs request qs u nmax lazy) = Nat.min nmax (length qs))
    as Hlen.
  { intros. unfold widgets_for_event_qs. by rewrite length_fmap, length_take. }
  split; [|split].
  - intros. rewrite Hlen. split; [done|lia].
  - simpl. rewrite !Hlen. split_and!; (done || lia).
  - eexists _, _, _. split; [|split_and!; try done; rewrite !Hlen; lia].
    unfold user_index_widgets_lazy. simpl. by rewrite <- app_assoc.
Qed.

End QueryFacts.

(** ** context.py *)
Module ContextFacts.
Import Models Context Spec.
Section WithEnv.
Context `{Env}.

Lemma subevent_part_run request e ctx w :
  ∃ ctx' w', subevent_part request e ctx w = (inr ctx', w')
    ∧ (∀ k, k ≠ "selected_subevents" → ctx' !! k = ctx !! k)
    ∧ cache w' = cache w ∧ session w' = session w ∧ memo w' = memo w.
Proof.
  unfold subevent_part.
  destruct (negb _); [|by eexists _, _].
  unfold try_except, int, mbind, M_bind, bind, mret, M_ret, ret, raise, logger_error.
  destruct (py_int _) as [msg|n]; simpl.
  - by eexists _, _.
  - eexists _, _. split; [done|]. split; [|done].
    intros k Hk. by rewrite lookup_insert_ne.
Qed.

Lemma subevent_part_absent request e ctx w :
  default "" (GET request !! "subevent") = "" →
  subevent_part request e ctx w = (inr ctx, w).
Proof. unfold subevent_part. by intros ->. Qed.

Lemma subevent_part_malformed request e ctx w s msg :
  GET request !! "subevent" = Some s → s ≠ "" → py_int (py_strip s) = inl msg →
  subevent_part request e ctx w =
    (inr ctx,
     {| cache := cache w; session := session w;
        log := (log w ++ ["Error parsing subevent ID: " +:+ msg])%list;
        memo := memo w |}).
Proof.
  intros Hs Hne Hint. unfold subevent_part. rewrite Hs. simpl.
  destruct (String.eqb_spec s ""); [done|]. simpl.
  unfold try_except, int, mbind, M_bind, bind, raise. by rewrite Hint.
Qed.

(** The domain lookup answers from the cache, and stores what the tables
    say when the cache has no entry. *)
Lemma get_event_domain_run e w :
  get_event_domain e w = (inr (domain_of e w), after_domain e w).
Proof.
  unfold get_event_domain, domain_of, after_domain, mbind, M_bind, bind, cache_get,
    cache_set, mret, M_ret, ret. simpl.
  destruct (default DNone (fst <$> cache w !! "domain_fallback")) as [|b|s|d];
    simpl; try done.
  by destruct (String.eqb s "none").
Qed.

Lemma after_domain_frame e w :
  session (after_domain e w) = session w
  ∧ log (after_domain e w) = log w
  ∧ memo (after_domain e w) = memo w
  ∧ ∀ k, k ≠ "domain_fallback" → cache (after_domain e w) !! k = cache w !! k.
Proof.
  unfold after_domain.
  destruct (default DNone (fst <$> cache w !! "domain_fallback")); simpl;
    split_and!; try done.
  intros k Hk. by rewrite lookup_insert_ne.
Qed.

Lemma cached_answer_after_domain e e' w :
  cached_answer e (after_domain e' w) = cached_answer e w.
Proof.
  unfold cached_answer.
  by rewrite (proj2 (proj2 (proj2 (after_domain_frame e' w)))) by done.
Qed.

Lemma cached_existence_test_after_domain e e' w :
  cached_existence_test e (after_domain e' w) = cached_existence_test e w.
Proof.
  unfold cached_existence_test.
  by rewrite (proj2 (proj2 (proj2 (after_domain_frame e' w)))) by done.
Qed.

Lemma flag_value_after_domain r org e e' w :
  flag_value r org e (after_domain e' w) = flag_value r org e w.
Proof. unfold flag_value. by rewrite cached_answer_after_domain. Qed.

(** A flag that is a boolean is the conjunction of the existence test and
    the permission check. *)
Lemma flag_value_bool r org e w b :
  flag_value r org e w = VBool b →
  b = negb (testmode e) && cached_existence_test e w
      && has_event_permission (user r) org e "can_view_orders" r.
Proof.
  unfold flag_value, cached_answer, cached_existence_test, py_and.
  destruct (testmode e); simpl; [by intros [= <-]|].
  destruct (default DNone (fst <$> cache w !! "complain_testmode_orders"))
    as [|c|s|d]; simpl.
  - destruct (existsb _ _); simpl; by intros [= <-].
  - destruct c; simpl; by intros [= <-].
  - destruct (negb (String.eqb s "")); simpl; [by intros [= <-]|done].
  - by intros [= <-].
Qed.

Lemma testmode_part_run request org e ctx w :
  testmode_part request org e ctx w =
    (inr (<["complain_testmode_orders" := flag_value request org e w]> ctx),
     after_testmode e w).
Proof.
  unfold testmode_part, flag_value, cached_answer, after_testmode.
  destruct (testmode e); simpl; [done|].
  unfold mbind, M_bind, bind, cache_get, cache_set, mret, M_ret, ret. simpl.
  by destruct (default DNone (fst <$> cache w !! "complain_testmode_orders")).
Qed.

Lemma after_testmode_frame e w :
  session (after_testmode e w) = session w
  ∧ log (after_testmode e w) = log w
  ∧ memo (after_testmode e w) = memo w
  ∧ (testmode e = true → after_testmode e w = w).
Proof.
  unfold after_testmode. destruct (testmode e); [done|].
  by destruct (default DNone (fst <$> cache w !! "complain_testmode_orders")).
Qed.

Lemma child_session_part_run request e has_domain ctx w :
  ∃ ctx' w', child_session_part request e has_domain ctx w = (inr ctx', w')
    ∧ (∀ k, k ≠ "new_session" → ctx' !! k = ctx !! k)
    ∧ cache w' = cache w ∧ log w' = log w ∧ memo w' = memo w.
Proof.
  unfold child_session_part.
  destruct (negb (live e) && has_domain); [|by eexists _, _].
  unfold mbind, M_bind, bind, session_get, session_set, mret, M_ret, ret. simpl.
  destruct (negb (truthy _)); simpl.
  - by eexists _, _.
  - eexists _, _. split; [done|]. split; [|done].
    intros k Hk. by rewrite lookup_insert_ne.
Qed.

Lemma testmode_part_agree r r' org e ctx :
  same_but_query r r' → testmode_part r' org e ctx = testmode_part r org e ctx.
Proof.
  intros (_ & _ & Huser & _ & _ & _ & _ & _ & Hperm).
  unfold testmode_part. by rewrite Huser, Hperm.
Qed.

Lemma child_session_part_agree r r' e has_domain ctx :
  same_but_query r r' →
  child_session_part r' e has_domain ctx = child_session_part r e has_domain ctx.
Proof.
  intros (_ & _ & _ & Hkey & _). unfold child_session_part. by rewrite Hkey.
Qed.

Ltac absent := repeat (rewrite lookup_insert_ne by done); apply lookup_empty.
Ltac unscoped :=
  left; split; [done|]; eexists; split_and!; [reflexivity..|absent|absent].

(** The whole run, for a request and for one that differs at most in its
    query string: either the request is not event-scoped, and the context is
    built without any effect, or everything up to the [subevent] step is
    the same for both. *)
Lemma run_agree (r r' : HttpRequest) (w : world) :
  same_but_query r r' →
  (event_scoped r = false
   ∧ ∃ ctx, _default_context r w = (inr ctx, w)
            ∧ _default_context r' w = (inr ctx, w)
            ∧ ctx !! "complain_testmode_orders" = None
            ∧ ctx !! "selected_subevents" = None)
  ∨ (event_scoped r = true
     ∧ ∃ e org ctx1 w1,
         event r = Some e ∧ organizer r = Some org
         ∧ _default_context r w = subevent_part r e ctx1 w1
         ∧ _default_context r' w = subevent_part r' e ctx1 w1
         ∧ ctx1 !! "selected_subevents" = None
         ∧ ctx1 !! "complain_testmode_orders" = Some (flag_value r org e w)
         ∧ log w1 = log w ∧ memo w1 = memo w
         ∧ cache w1 = cache (after_testmode e (after_domain e w))).
Proof.
  intros Hsame.
  pose proof Hsame as (Hpath & Hinfo & Huser & Hkey & Hev & Horg & Hnav & Hevnav & Hperm).
  unfold event_scoped, _default_context, user_part, event_part.
  rewrite Hpath, Hinfo, Huser, Hev, Horg, Hnav, Hevnav, Hkey.
  unfold try_except, resolve_, mbind, M_bind, bind, mret, M_ret, ret, raise.
  destruct (resolve (path_info r)) as [url|] eqn:Hres; simpl; [|unscoped].
  destruct (String.prefix _ (path r)); simpl; [|unscoped].
  destruct (is_authenticated (user r)); simpl; [|unscoped].
  destruct (event r) as [e|]; simpl; [|unscoped].
  destruct (organizer r) as [org|]; simpl; [|destruct (_ || _); unscoped].
  right. split; [done|].
  rewrite get_event_domain_run.
  match goal with
  | |- context [testmode_part r org e ?c (after_domain e w)] => set (ctx0 := c)
  end.
  assert (ctx0 !! "selected_subevents" = None) as Hsel
    by (subst ctx0; destruct (_ || _); absent).
  clearbody ctx0.
  rewrite (testmode_part_agree r r') by exact Hsame.
  rewrite testmode_part_run, flag_value_after_domain.
  rewrite (child_session_part_agree r r') by exact Hsame.
  match goal with
  | |- context [child_session_part r e ?d ?c ?w0] =>
      destruct (child_session_part_run r e d c w0)
        as (ctx1 & w1 & -> & Hctx1 & Hc1 & Hl1 & Hm1)
  end.
  destruct (after_testmode_frame e (after_domain e w)) as (_ & Hl0 & Hm0 & _).
  destruct (after_domain_frame e w) as (_ & Hld & Hmd & _).
  exists e, org, ctx1, w1. split_and!; try done.
  - rewrite Hctx1 by done. by rewrite lookup_insert_ne.
  - rewrite Hctx1 by done. by rewrite lookup_insert_eq.
  - congruence.
  - congruence.
Qed.

Lemma same_but_query_refl r : same_but_query r r.
Proof. by repeat split. Qed.

(** C3, as amended.  What suppresses the warning flag is the event's
    test-mode switch, not its live switch: for an event in test mode the flag
    put in the context is [False], whatever the cache holds and whatever
    orders exist.  (The flag is put in the context of event-scoped requests
    only.) *)
Theorem testmode_event_flag_false (request : HttpRequest) (e : Event) (w : world) :
  event request = Some e → testmode e = true →
  ∃ ctx w', _default_context request w = (inr ctx, w')
            ∧ ctx !! "complain_testmode_orders"
              = if event_scoped request then Some (VBool false) else None.
Proof.
  intros He Ht.
  destruct (run_agree request request w (same_but_query_refl _))
    as [(-> & ctx & Hrun & _ & Hflag & _)
       |(-> & e' & org & ctx1 & w1 & He' & _ & Hrun & _ & _ & Hflag & _)].
  - by exists ctx, w.
  - simplify_eq. unfold flag_value in Hflag. rewrite Ht in Hflag.
    destruct (subevent_part_run request e ctx1 w1) as (ctx' & w' & Hs & Hk & _).
    exists ctx', w'. rewrite Hrun, Hs. split; [done|]. by rewrite Hk.
Qed.

(** C7, as amended.  A [subevent] parameter that is not empty and that
    [int] rejects (after [strip]) never makes the operation fail: it returns
    a context without the key ['selected_subevents'].  The failure is logged,
    with the message of [int], when the request is event-scoped, the only
    case in which the parameter is read; otherwise nothing is logged.  The
    other keys do not depend on the parameter: a request that differs in its
    query string only, and has no such parameter, gets the same context, and
    leaves the same cache, session and memo. *)
Theorem malformed_subevent_ignored (request : HttpRequest) (s msg : string) :
  GET request !! "subevent" = Some s → s ≠ "" → py_int (py_strip s) = inl msg →
  ∀ w, ∃ ctx w',
    _default_context request w = (inr ctx, w')
    ∧ ctx !! "selected_subevents" = None
    ∧ log w' =
        (if event_scoped request
         then (log w ++ ["Error parsing subevent ID: " +:+ msg])%list
         else log w)
    ∧ ∀ request', same_but_query request request' →
                  GET request' !! "subevent" = None →
        ∃ w0, _default_context request' w = (inr ctx, w0)
              ∧ cache w' = cache w0 ∧ session w' = session w0 ∧ memo w' = memo w0.
Proof.
  intros Hs Hne Hint w.
  destruct (run_agree request request w (same_but_query_refl _))
    as [(Hsc & ctx & Hrun & _ & _ & Hsel)
       |(Hsc & e & org & ctx1 & w1 & He & Ho & Hrun & _ & Hsel & _ & Hl & _)];
    rewrite Hsc.
  - exists ctx, w. split_and!; [done..|].
    intros request' Hsame Hnone.
    destruct (run_agree request request' w Hsame)
      as [(_ & ctx' & Hrun1 & Hrun2 & _)|(Hsc' & _)]; [|congruence].
    exists w. rewrite Hrun in Hrun1. by simplify_eq.
  - rewrite (subevent_part_malformed _ _ _ _ s msg) in Hrun by done.
    eexists ctx1, _. split_and!; [exact Hrun|done|by rewrite <- Hl|].
    intros request' Hsame Hnone.
    destruct (run_agree request request' w Hsame)
      as [(Hsc' & _)|(_ & e' & org' & ctx1' & w1' & He' & Ho' & Hrun1 & Hrun2 & _)];
      [congruence|].
    rewrite (subevent_part_malformed _ _ _ _ s msg) in Hrun1 by done.
    rewrite Hrun in Hrun1. simplify_eq.
    rewrite subevent_part_absent in Hrun2 by (by rewrite Hnone).
    exists w1'. by rewrite Hrun2.
Qed.

(** C8.  When the path does not resolve, or does not start with the script
    prefix followed by [common], the operation returns the empty context
    without raising, and nothing else happens: cache, session, log and memo
    are as they were. *)
Theorem unrouted_request_empty_context (request : HttpRequest) (w : world) :
  resolve (path_info request) = None
  ∨ String.prefix (get_script_prefix +:+ "common") (path request) = false →
  _default_context request w = (inr ∅, w).
Proof.
  unfold _default_context, try_except, resolve_, mbind, M_bind, bind, mret, M_ret,
    ret, raise.
  intros [Hres|Hpre].
  - by rewrite Hres.
  - destruct (resolve (path_info request)); [|done]. simpl. by rewrite Hpre.
Qed.

(** C9.  The flag in the context is the conjunction of the cached existence
    test and the permission check (for an event out of test mode); so when
    it is [True], the user holds ['can_view_orders'] for the event. *)
Theorem flag_true_needs_permission (request : HttpRequest) (w w' : world)
    (ctx : gmap string value) (b : bool) :
  _default_context request w = (inr ctx, w') →
  ctx !! "complain_testmode_orders" = Some (VBool b) →
  ∃ org e, organizer request = Some org ∧ event request = Some e
    ∧ b = negb (testmode e) && cached_existence_test e w
          && has_event_permission (user request) org e "can_view_orders" request
    ∧ (b = true →
       has_event_permission (user request) org e "can_view_orders" request = true).
Proof.
  intros Hrun Hflag.
  destruct (run_agree request request w (same_but_query_refl _))
    as [(_ & ctx0 & Hrun0 & _ & Hflag0 & _)
       |(_ & e & org & ctx1 & w1 & He & Ho & Hrun1 & _ & _ & Hflag1 & _)].
  - rewrite Hrun in Hrun0. by simplify_eq.
  - destruct (subevent_part_run request e ctx1 w1) as (ctx' & w'' & Hs & Hk & _).
    rewrite Hrun, Hs in Hrun1. simplify_eq.
    rewrite Hk, Hflag1 in Hflag by done. simplify_eq.
    pose proof (flag_value_bool _ _ _ _ _ Hflag) as Hb.
    exists org, e. split_and!; [done..|].
    intros ->. symmetry in Hb. by apply andb_true_iff in Hb as [_ Hp].
Qed.

(** The operation always returns a context. *)
Lemma default_context_returns (r : HttpRequest) (w : world) :
  ∃ ctx w', _default_context r w = (inr ctx, w') ∧ memo w' = memo w.
Proof.
  destruct (run_agree r r w (same_but_query_refl _))
    as [(_ & ctx & Hrun & _)
       |(_ & e & org & ctx1 & w1 & _ & _ & Hrun & _ & _ & _ & _ & Hm & _)].
  - by exists ctx, w.
  - destruct (subevent_part_run r e ctx1 w1) as (ctx' & w' & Hs & _ & _ & _ & Hm').
    exists ctx', w'. rewrite Hrun, Hs. split; [done|congruence].
Qed.

Lemma run_shape (r : HttpRequest) (w : world) :
  _default_context r w = (inr (ctx_of (_default_context r w)), (_default_context r w).2).
Proof.
  destruct (default_context_returns r w) as (ctx & w' & Hrun & _). by rewrite Hrun.
Qed.

End WithEnv.

(** C3, as stated, fails: a live event that has left test mode, whose cache
    says that test-mode orders exist, gets the flag [True] when the user may
    view orders. *)
Lemma live_event_flag_true :
  live Examples.live_event = true
  ∧ context_lookup
      (_default_context (H := Examples.context_env true)
         (Examples.event_request Examples.organiser Examples.live_event ∅)
         Examples.cached_world)
      "complain_testmode_orders" = Some (VBool true).
Proof. split; [reflexivity|]. vm_compute. reflexivity. Qed.

Lemma testmode_event_flag_false_witness :
  let request := Examples.event_request Examples.organiser Examples.testing_event ∅ in
  event request = Some Examples.testing_event
  ∧ testmode Examples.testing_event = true
  ∧ ∃ ctx w',
      _default_context (H := Examples.context_env true) request Examples.cached_world
        = (inr ctx, w')
      ∧ ctx !! "complain_testmode_orders" = Some (VBool false).
Proof.
  split; [reflexivity|]. split; [reflexivity|].
  apply (testmode_event_flag_false (H := Examples.context_env true)
           (Examples.event_request Examples.organiser Examples.testing_event ∅)
           Examples.testing_event Examples.cached_world); reflexivity.
Defined.

(** C7, as stated, fails: for an anonymous user the parameter is not read,
    so its being malformed is not logged. *)
Lemma anonymous_malformed_not_logged :
  GET Examples.anonymous_malformed_request !! "subevent" = Some "abc"
  ∧ py_int (Env := Examples.context_env true)
      (py_strip (Env := Examples.context_env true) "abc")
    = inl "invalid literal for int() with base 10: 'abc'"
  ∧ log (_default_context (H := Examples.context_env true)
           Examples.anonymous_malformed_request Examples.fresh_world).2 = [].
Proof. split_and!; vm_compute; reflexivity. Qed.

Lemma malformed_subevent_ignored_witness :
  GET Examples.malformed_request !! "subevent" = Some "abc"
  ∧ py_int (Env := Examples.context_env true)
      (py_strip (Env := Examples.context_env true) "abc")
    = inl "invalid literal for int() with base 10: 'abc'"
  ∧ ∃ ctx w',
      _default_context (H := Examples.context_env true) Examples.malformed_request
        Examples.fresh_world = (inr ctx, w')
      ∧ ctx !! "selected_subevents" = None
      ∧ log w'
        = ["Error parsing subevent ID: invalid literal for int() with base 10: 'abc'"]
      ∧ ∃ w0, _default_context (H := Examples.context_env true)
                (without_subevent Examples.malformed_request) Examples.fresh_world
              = (inr ctx, w0).
Proof.
  split; [reflexivity|]. split; [reflexivity|].
  destruct (malformed_subevent_ignored (H := Examples.context_env true)
              Examples.malformed_request "abc"
              "invalid literal for int() with base 10: 'abc'"
              ltac:(reflexivity) ltac:(discriminate) ltac:(reflexivity)
              Examples.fresh_world)
    as (ctx & w' & Hrun & Hsel & Hlog & Hsame).
  exists ctx, w'. split; [exact Hrun|]. split; [exact Hsel|]. split; [exact Hlog|].
  destruct (Hsame (without_subevent Examples.malformed_request))
    as (w0 & Hrun0 & _).
  - repeat split.
  - reflexivity.
  - by exists w0.
Defined.

Lemma flag_true_needs_permission_witness :
  let request := Examples.event_request Examples.organiser Examples.live_event ∅ in
  let run := _default_context (H := Examples.context_env true) request
               Examples.fresh_world in
  context_lookup run "complain_testmode_orders" = Some (VBool true)
  ∧ ∃ org e, organizer request = Some org ∧ event request = Some e
      ∧ true = negb (testmode e) && cached_existence_test e Examples.fresh_world
               && has_event_permission (Env := Examples.context_env true)
                    (user request) org e "can_view_orders" request
      ∧ (true = true →
         has_event_permission (Env := Examples.context_env true)
           (user request) org e "can_view_orders" request = true).
Proof.
  intros request run.
  assert (context_lookup run "complain_testmode_orders" = Some (VBool true)) as Hflag
    by (vm_compute; reflexivity).
  split; [exact Hflag|].
  exact (flag_true_needs_permission (H := Examples.context_env true) request
           Examples.fresh_world run.2 (ctx_of run) true (run_shape _ _) Hflag).
Defined.

Lemma unrouted_request_empty_context_witness :
  resolve (Env := Examples.context_env true) (path_info Examples.control_request) = None
  ∧ _default_context (H := Examples.context_env true) Examples.control_request
      Examples.cached_world = (inr ∅, Examples.cached_world).
Proof.
  split; [reflexivity|].
  apply (unrouted_request_empty_context (H := Examples.context_env true)).
  left. reflexivity.
Defined.

End ContextFacts.

(** ** Further properties of the stable sort *)
Module StableSortMore.
Import StableSort StableSortFacts.
Section More.
Context {A : Type} (before : A → A → bool) `{!StrictWeak before}.

(** A list that is already in order comes out as it went in. *)
Lemma stable_sort_fixed l : in_order before l → stable_sort before l = l.
Proof.
  unfold in_order. induction 1 as [|x l Hl IH Hx]; [done|].
  cbn [stable_sort foldr]. fold (stable_sort before l). rewrite IH.
  destruct l as [|y l']; [done|]. simpl.
  apply Forall_cons in Hx as [Hy _]. by rewrite Hy.
Qed.

Lemma stable_sort_idempotent l :
  stable_sort before (stable_sort before l) = stable_sort before l.
Proof. apply stable_sort_fixed, stable_sort_in_order, _. Qed.

(** What the sort keeps in front is never beaten by what it leaves behind. *)
Lemma stable_sort_take_drop l n a b :
  a ∈ take n (stable_sort before l) → b ∈ drop n (stable_sort before l) →
  before b a = false.
Proof.
  intros Ha Hb.
  pose proof (stable_sort_in_order before l) as Hs.
  unfold in_order in Hs. rewrite <- (take_drop n (stable_sort before l)) in Hs.
  by apply (StronglySorted_app_1_elem_of _ _ _ a b) in Hs.
Qed.

Lemma stable_sort_elem_of l x : x ∈ stable_sort before l ↔ x ∈ l.
Proof. by rewrite (stable_sort_perm before l). Qed.

End More.

(** Splitting a list by three tests of which exactly one holds of each
    element loses and repeats nothing. *)
Lemma filter_three_way {A} (P Q R : A → bool) (l : list A) :
  Forall (λ x, (P x = true ∧ Q x = false ∧ R x = false)
               ∨ (P x = false ∧ Q x = true ∧ R x = false)
               ∨ (P x = false ∧ Q x = false ∧ R x = true)) l →
  (List.filter P l ++ List.filter Q l ++ List.filter R l)%list ≡ₚ l.
Proof.
  induction 1 as [|x l Hx Hl IH]; [done|]. simpl.
  destruct Hx as [(-> & -> & ->)|[(-> & -> & ->)|(-> & -> & ->)]]; simpl.
  - by f_equiv.
  - rewrite <- Permutation_middle. by f_equiv.
  - rewrite app_assoc, <- Permutation_middle, <- app_assoc. by f_equiv.
Qed.

End StableSortMore.

(** ** views/dashboards.py: more on the widget ranker *)
Module RankerMore.
Import StableSort StableSortFacts StableSortMore Models Dashboards RankerFacts.

(** X1.  Ranking twice is ranking once. *)
Theorem rearrange_idempotent (widgets : list widget) :
  rearrange (rearrange widgets) = rearrange widgets.
Proof.
  apply (stable_sort_idempotent _ (StrictWeak0 := sorted_strict_weak sort_key true)).
Qed.

(** X2.  The event widgets all carry priority 100 and size ['small'], so
    ranking them leaves them in the order of the query. *)
Theorem rearrange_event_widgets `{Env} (request : HttpRequest)
    (qs : list annotated_event) (u : User) (nmax : nat) (lazy : bool) :
  Forall (λ w, sort_key w = (100, 1)) (widgets_for_event_qs request qs u nmax lazy)
  ∧ rearrange (widgets_for_event_qs request qs u nmax lazy)
    = widgets_for_event_qs request qs u nmax lazy.
Proof.
  assert (Forall (λ w, sort_key w = (100, 1))
            (widgets_for_event_qs request qs u nmax lazy)) as Hk.
  { unfold widgets_for_event_qs. apply Forall_fmap, Forall_true. intros a.
    reflexivity. }
  split; [done|].
  apply stable_sort_fixed. unfold in_order. induction Hk as [|w l Hw Hl IH]; constructor; [done|].
  eapply Forall_impl; [exact Hl|]. simpl. intros w' Hw'. by rewrite Hw, Hw'.
Qed.

End RankerMore.

(** ** views/dashboards.py: more on the event query and the buckets *)
Module QueryMore.
Import StableSort StableSortFacts StableSortMore Models Dashboards QueryFacts.

Lemma agg_max_assoc x y z :
  agg Z.max x (agg Z.max y z) = agg Z.max (agg Z.max x y) z.
Proof. destruct x, y, z; simpl; by rewrite ?Z.max_assoc. Qed.

Lemma Max_app l1 l2 : Max (l1 ++ l2) = agg Z.max (Max l1) (Max l2).
Proof.
  induction l1 as [|o l1 IH]; simpl; [done|].
  by rewrite IH, agg_max_assoc.
Qed.

(** X3.  The fallback chain makes [order_to] the same on every database
    backend, whichever way its [Greatest] treats NULL, and the [lazy] switch
    has no part in it. *)
Theorem order_to_backend_independent (v v' : vendor) (lazy lazy' : bool) (e : Event) :
  order_to (annotate v lazy e) = order_to (annotate v' lazy' e).
Proof.
  cbn [order_to annotate].
  destruct (Max (sub_date_to <$> subevents e)), (Max (sub_date_from <$> subevents e));
    by destruct v, v'.
Qed.

(** X4.  When some sub-occurrence has a start or an end, [order_to] is the
    latest of all sub-occurrence starts and ends. *)
Theorem order_to_latest_date (v : vendor) (lazy : bool) (e : Event) (m : Z) :
  let dates := ((sub_date_to <$> subevents e) ++ (sub_date_from <$> subevents e))%list in
  Some m ∈ dates → (∀ x, Some x ∈ dates → x ≤ m) →
  order_to (annotate v lazy e) = Some m.
Proof.
  intros dates Hin Hle.
  assert (Max dates = Some m) as HM by (by apply Max_Some).
  unfold dates in HM. rewrite Max_app in HM.
  cbn [order_to annotate].
  destruct (Max (sub_date_to <$> subevents e)), (Max (sub_date_from <$> subevents e));
    simpl in HM; simplify_eq; by destruct v.
Qed.

Lemma order_to_latest_date_witness :
  order_to (annotate sqlite false Examples.series_event)
  = Some (Examples.midnight 2024 4 1).
Proof.
  apply (order_to_latest_date sqlite false Examples.series_event
           (Examples.midnight 2024 4 1)).
  - apply (list_elem_of_lookup_2 _ 3%nat). reflexivity.
  - intros x Hx. vm_compute in Hx.
    repeat (apply elem_of_cons in Hx as [Hx|Hx]; [simplify_eq; done|]).
    by apply elem_of_nil in Hx.
Defined.

(** Every annotated row falls under exactly one filter when it has
    sub-occurrences or a start date. *)
Lemma one_bucket v lazy now e :
  (has_subevents e = false → date_from e ≠ None) →
  let a := annotate v lazy e in
  let holds (q : annotated_event → option bool) :=
    if q a is Some true then true else false in
  (holds (upcoming now now) = true ∧ holds (past now now) = false
   ∧ holds series = false)
  ∨ (holds (upcoming now now) = false ∧ holds (past now now) = true
     ∧ holds series = false)
  ∨ (holds (upcoming now now) = false ∧ holds (past now now) = false
     ∧ holds series = true).
Proof.
  intros Hstart. unfold upcoming, past, series, gte, lt, isnull, exact.
  cbn [ev annotate].
  destruct (has_subevents e); simpl; [by right; right|].
  destruct (date_from e) as [start|]; [|by destruct Hstart].
  destruct (date_to e) as [stop|]; simpl.
  - destruct (Z.leb_spec now stop), (Z.ltb_spec stop now); simpl;
      first [lia | by left | by right; left].
  - destruct (Z.leb_spec now start), (Z.ltb_spec start now); simpl;
      first [lia | by left | by right; left].
Qed.

(** X5.  At one reading of the clock the three queries of the dashboard
    split the visible events: when every event without sub-occurrences has a
    start date, each visible event is in exactly one of upcoming, past and
    series (before the caps are applied). *)
Theorem buckets_partition `{Env} (request : HttpRequest) (lazy : bool) (now : Z) :
  Forall (λ e, has_subevents e = false → date_from e ≠ None)
    (get_events_with_any_permission request) →
  (upcoming_qs request lazy now now ++ past_qs request lazy now now
     ++ series_qs request lazy)%list
  ≡ₚ annotated_event_query request lazy.
Proof.
  intros Hstart. unfold upcoming_qs, past_qs, series_qs, order_by.
  rewrite !stable_sort_perm. unfold qfilter. apply filter_three_way.
  unfold annotated_event_query. apply Forall_fmap.
  eapply Forall_impl; [exact Hstart|]. intros e He. by apply one_bucket.
Qed.

Lemma buckets_partition_witness :
  (upcoming_qs (H := Examples.dashboard_env) Examples.dashboard_request true
     (Examples.midnight 2024 1 20) (Examples.midnight 2024 1 20)
   ++ past_qs (H := Examples.dashboard_env) Examples.dashboard_request true
        (Examples.midnight 2024 1 20) (Examples.midnight 2024 1 20)
   ++ series_qs (H := Examples.dashboard_env) Examples.dashboard_request true)%list
  ≡ₚ annotated_event_query (H := Examples.dashboard_env) Examples.dashboard_request true.
Proof.
  apply (buckets_partition (H := Examples.dashboard_env)).
  repeat constructor; intros _; discriminate.
Defined.

Lemma bucket_source `{Env} (request : HttpRequest) (lazy lazy' : bool)
    (fields : list string) (q : annotated_event → option bool) (u : User) (nmax : nat) :
  Forall (λ w, ∃ e, e ∈ get_events_with_any_permission request
                    ∧ Dashboards.lazy w = Some ("event-" +:+ pretty (pk e)))
    (widgets_for_event_qs request
       (order_by fields (qfilter q (annotated_event_query request lazy))) u nmax lazy').
Proof.
  unfold widgets_for_event_qs. apply Forall_fmap, Forall_forall.
  intros a (i & Ha & _)%elem_of_take.
  apply list_elem_of_lookup_2 in Ha. unfold order_by in Ha.
  rewrite stable_sort_perm in Ha.
  apply list_elem_of_In, List.filter_In in Ha as [Ha _].
  apply list_elem_of_In, list_elem_of_fmap in Ha as (e & -> & He).
  by exists e.
Qed.

(** X6.  The dashboards show no event but those the user has a permission
    on: every event widget of [organiser_dashboard] and of
    [user_index_widgets_lazy] carries the token of such an event. *)
Theorem dashboards_show_permitted_events `{Env} (request : HttpRequest)
    (now1 now2 now3 now4 : Z) :
  let permitted w :=
    ∃ e, e ∈ get_events_with_any_permission request
         ∧ Dashboards.lazy w = Some ("event-" +:+ pretty (pk e)) in
  let ctx := organiser_dashboard request now1 now2 now3 now4 in
  Forall permitted (ctx_upcoming ctx ++ ctx_past ctx ++ ctx_series ctx)%list
  ∧ Forall permitted (user_index_widgets_lazy request now1 now2 now3 now4).
Proof.
  intros permitted ctx. unfold user_index_widgets_lazy. simpl.
  rewrite !Forall_app. split_and!; apply bucket_source.
Qed.

(** X7.  The caps keep the right end of each ordering: an upcoming event
    left out by the cap never starts before one that is shown, and a past
    event or a series left out never has a later [order_to] than one that
    is shown. *)
Theorem caps_keep_first `{Env} (request : HttpRequest) (lazy : bool)
    (now1 now2 now3 now4 : Z) (nmax : nat) (a b : annotated_event) (x y : Z) :
  (a ∈ take nmax (upcoming_qs request lazy now1 now2) →
   b ∈ drop nmax (upcoming_qs request lazy now1 now2) →
   date_from (ev a) = Some x → date_from (ev b) = Some y → x ≤ y)
  ∧ (a ∈ take nmax (past_qs request lazy now3 now4) →
     b ∈ drop nmax (past_qs request lazy now3 now4) →
     order_to a = Some x → order_to b = Some y → y ≤ x)
  ∧ (a ∈ take nmax (series_qs request lazy) →
     b ∈ drop nmax (series_qs request lazy) →
     order_to a = Some x → order_to b = Some y → y ≤ x).
Proof.
  split_and!; intros Ha Hb Hx Hy;
    pose proof (stable_sort_take_drop _ (StrictWeak0 := cmp_rows_strict_weak db _)
                  _ _ _ _ Ha Hb) as Hba;
    cbn in Hba; rewrite Hx, Hy in Hba; cbn in Hba.
  - destruct (Z.compare_spec y x); (lia || done).
  - destruct (Z.compare_spec x y); (lia || done).
  - destruct (Z.compare_spec x y); (lia || done).
Qed.

Lemma caps_keep_first_witness :
  let january := annotate postgresql true Examples.january_event in
  let february := annotate postgresql true Examples.february_event in
  let qs := upcoming_qs (H := Examples.dashboard_env) Examples.dashboard_request true
              (Examples.midnight 2024 1 5) (Examples.midnight 2024 1 5) in
  january ∈ take 1 qs ∧ february ∈ drop 1 qs
  ∧ Examples.midnight 2024 1 10 ≤ Examples.midnight 2024 2 1.
Proof.
  intros january february qs.
  assert (january ∈ take 1 qs) as Ha
    by (apply (list_elem_of_lookup_2 _ 0%nat); reflexivity).
  assert (february ∈ drop 1 qs) as Hb
    by (apply (list_elem_of_lookup_2 _ 0%nat); reflexivity).
  split; [exact Ha|]. split; [exact Hb|].
  exact (proj1 (caps_keep_first (H := Examples.dashboard_env)
                  Examples.dashboard_request true
                  (Examples.midnight 2024 1 5) (Examples.midnight 2024 1 5)
                  (Examples.midnight 2024 1 5) (Examples.midnight 2024 1 5) 1
                  january february
                  (Examples.midnight 2024 1 10) (Examples.midnight 2024 2 1))
           Ha Hb eq_refl eq_refl).
Defined.

(** The rows of a query that pass a filter are in the ordered bucket. *)
Lemma bucket_elem_of `{Env} (fields : list string) (q : annotated_event → option bool)
    (qs : list annotated_event) (a : annotated_event) :
  a ∈ qs → q a = Some true → a ∈ order_by fields (qfilter q qs).
Proof.
  intros Ha Hq. rewrite order_by_perm. unfold qfilter.
  apply list_elem_of_In, List.filter_In. split; [by apply list_elem_of_In|].
  by rewrite Hq.
Qed.

(** X8.  The past bucket and the series bucket list their events from the
    latest [order_to] to the earliest one, and rows with the same [order_to]
    by ascending primary key: of two visible events that pass the filter of
    the bucket, both are in the bucket, and the one with the later
    [order_to] (the smaller primary key, when these are equal) stands
    first. *)
Theorem past_order `{Env} (request : HttpRequest) (lazy : bool) (now3 now4 : Z)
    (a b : annotated_event) (x y : Z) :
  a ∈ annotated_event_query request lazy →
  b ∈ annotated_event_query request lazy →
  order_to a = Some x → order_to b = Some y →
  y < x ∨ (x = y ∧ pk (ev a) < pk (ev b)) →
  (past now3 now4 a = Some true → past now3 now4 b = Some true →
   a ∈ past_qs request lazy now3 now4 ∧ b ∈ past_qs request lazy now3 now4
   ∧ precedes (past_qs request lazy now3 now4) a b)
  ∧ (series a = Some true → series b = Some true →
     a ∈ series_qs request lazy ∧ b ∈ series_qs request lazy
     ∧ precedes (series_qs request lazy) a b).
Proof.
  intros Ha Hb Hx Hy Hlt.
  assert (∀ qs, precedes (order_by ["-order_to"; "pk"] qs) a b) as Hprec.
  { intros qs.
    apply (stable_sort_precedes _ (StrictWeak0 := cmp_rows_strict_weak db _)).
    cbn. rewrite Hx, Hy. cbn.
    destruct Hlt as [Hlt|[-> Hlt]].
    - by rewrite (proj2 (Z.compare_lt_iff y x) Hlt).
    - by rewrite Z.compare_refl, (proj2 (Z.compare_lt_iff _ _) Hlt). }
  split; intros Hqa Hqb; (split_and!; [by apply bucket_elem_of..|apply Hprec]).
Qed.

Lemma past_order_witness :
  let february := annotate postgresql true Examples.february_event in
  let january := annotate postgresql true Examples.january_event in
  let qs := past_qs (H := Examples.dashboard_env) Examples.dashboard_request true
              (Examples.midnight 2024 12 1) (Examples.midnight 2024 12 1) in
  february ∈ qs ∧ january ∈ qs ∧ precedes qs february january
  ∧ qs = [february; january].
Proof.
  intros february january qs.
  assert (february ∈ annotated_event_query (H := Examples.dashboard_env)
                       Examples.dashboard_request true) as Hf
    by (apply (list_elem_of_lookup_2 _ 0%nat); reflexivity).
  assert (january ∈ annotated_event_query (H := Examples.dashboard_env)
                      Examples.dashboard_request true) as Hj
    by (apply (list_elem_of_lookup_2 _ 2%nat); reflexivity).
  destruct (proj1 (past_order (H := Examples.dashboard_env) Examples.dashboard_request
                     true (Examples.midnight 2024 12 1) (Examples.midnight 2024 12 1)
                     february january
                     (Examples.midnight 2024 2 1) (Examples.midnight 2024 1 10)
                     Hf Hj eq_refl eq_refl (or_introl eq_refl))
              eq_refl eq_refl) as (H1 & H2 & H3).
  split; [exact H1|]. split; [exact H2|]. split; [exact H3|]. reflexivity.
Defined.

End QueryMore.

(** ** context.py: more on the context and on its effects *)
Module ContextMore.
Import Models Context Spec ContextFacts.
Section WithEnv.
Context `{Env}.

Ltac no_key := repeat (rewrite lookup_insert_ne by done); apply lookup_empty.
Ltac this_key := repeat (rewrite lookup_insert_ne by done); apply lookup_insert_eq.

(** The world after the child-session step, written out. *)
Lemma child_session_part_exact request e has_domain ctx w :
  child_session_part request e has_domain ctx w =
    if negb (live e) && has_domain then
      let key := "child_session_" +:+ pretty (pk e) in
      let child_sess := default DNone (session w !! key) in
      if truthy child_sess then
        (inr (<["new_session" := VData child_sess]> ctx),
         {| cache := cache w;
            session := <["event_access" := DBool true]> (session w);
            log := log w; memo := memo w |})
      else
        (inr ctx,
         {| cache := cache w;
            session := <["event_access" := DBool true]>
                         (<[key := opt_data (session_key request)]> (session w));
            log := log w; memo := memo w |})
    else (inr ctx, w).
Proof.
  unfold child_session_part. destruct (negb (live e) && has_domain); [|done].
  unfold mbind, M_bind, bind, session_get, session_set, mret, M_ret, ret. simpl.
  by destruct (truthy _).
Qed.

Lemma subevent_part_exact request e ctx w :
  let param := default "" (GET request !! "subevent") in
  subevent_part request e ctx w =
    if String.eqb param "" then (inr ctx, w)
    else match py_int (py_strip param) with
         | inr n =>
             (inr (<["selected_subevents" :=
                      VSubEvents {| all_rows := subevents e; filter_pk := n |}]> ctx), w)
         | inl msg =>
             (inr ctx,
              {| cache := cache w; session := session w;
                 log := (log w ++ ["Error parsing subevent ID: " +:+ msg])%list;
                 memo := memo w |})
         end.
Proof.
  intros param. unfold subevent_part. fold param.
  destruct (String.eqb param ""); simpl; [done|].
  unfold try_except, int, mbind, M_bind, bind, mret, M_ret, ret, raise, logger_error.
  by destruct (py_int _).
Qed.

(** The run of an event-scoped request, as the three steps after the
    domain has been looked up and the context of the event has been put
    together. *)
Lemma scoped_steps (r : HttpRequest) (w : world) :
  event_scoped r = true →
  ∃ e org ctx0,
    event r = Some e ∧ organizer r = Some org
    ∧ ctx0 !! "new_session" = None
    ∧ ctx0 !! "selected_subevents" = None
    ∧ ctx0 !! "complain_testmode_orders" = None
    ∧ _default_context r w =
        (ctx ← testmode_part r org e ctx0 ;
         ctx ← child_session_part r e (domain_bound e w) ctx ;
         subevent_part r e ctx) (after_domain e w).
Proof.
  unfold event_scoped, _default_context, user_part, event_part.
  unfold try_except at 1. unfold resolve_.
  destruct (resolve (path_info r)) as [url|]; simpl; [|done].
  unfold mbind at 1, M_bind at 1, bind at 1. simpl.
  destruct (String.prefix _ (path r)); simpl; [|done].
  destruct (is_authenticated (user r)); simpl; [|done].
  destruct (event r) as [e|]; simpl; [|done].
  destruct (organizer r) as [org|]; simpl; [|done].
  intros _. unfold mbind at 1, M_bind at 1, bind at 1.
  rewrite get_event_domain_run. fold (domain_bound e w).
  eexists e, org, _. split_and!; [done|done| | | |reflexivity];
    destruct (_ || _); no_key.
Qed.

(** X9.  [contextprocessor] always returns a context, keeps it on the
    request, and serves every later call from there: the second call
    returns the same context and changes nothing, so that cache, session and
    log are touched at most once per request.  A context that is already on
    the request is returned as it is. *)
Theorem contextprocessor_memoizes (request : HttpRequest) (w : world) :
  ∃ ctx w',
    contextprocessor request w = (inr ctx, w')
    ∧ memo w' = Some ctx
    ∧ contextprocessor request w' = (inr ctx, w')
    ∧ (memo w = None → ∃ w1, _default_context request w = (inr ctx, w1)
                             ∧ cache w' = cache w1 ∧ session w' = session w1
                             ∧ log w' = log w1)
    ∧ (∀ c, memo w = Some c → ctx = c ∧ w' = w).
Proof.
  unfold contextprocessor, get_memo, set_memo, mbind, M_bind, bind, mret, M_ret, ret.
  destruct (memo w) as [c|] eqn:Hm; simpl.
  - exists c, w. rewrite Hm. split_and!; [done..|]. by intros ? [= ->].
  - destruct (default_context_returns request w) as (ctx & w1 & Hrun & _).
    rewrite Hrun. simpl. eexists ctx, _. split_and!; [done..| |done].
    intros _. by exists w1.
Qed.


Lemma scoped_result (r : HttpRequest) (w w' : world) (ctx : gmap string value) :
  event_scoped r = true → _default_context r w = (inr ctx, w') →
  ∃ e org ctx1 w1,
    event r = Some e ∧ organizer r = Some org
    ∧ ctx1 !! "selected_subevents" = None
    ∧ cache w1 = cache (after_testmode e (after_domain e w)) ∧ log w1 = log w
    ∧ subevent_part r e ctx1 w1 = (inr ctx, w').
Proof.
  intros Hs Hrun.
  destruct (scoped_steps r w Hs)
    as (e & org & ctx0 & He & Ho & Hn & Hsel & Hf & Hsteps).
  rewrite Hrun in Hsteps. unfold mbind, M_bind, bind in Hsteps.
  rewrite testmode_part_run in Hsteps.
  match type of Hsteps with
  | context [child_session_part r e ?d ?c ?w0] =>
      destruct (child_session_part_run r e d c w0)
        as (ctx1 & w1 & Hc & Hk & Hcache & Hlog & _)
  end.
  rewrite Hc in Hsteps. exists e, org, ctx1, w1. split_and!; try done.
  - rewrite Hk by done. by rewrite lookup_insert_ne.
  - rewrite Hlog. rewrite (proj1 (proj2 (after_testmode_frame _ _))).
    apply after_domain_frame.
Qed.

Lemma unscoped_result (r : HttpRequest) (w w' : world) (ctx : gmap string value) :
  event_scoped r = false → _default_context r w = (inr ctx, w') →
  w' = w ∧ ctx !! "selected_subevents" = None.
Proof.
  intros Hs Hrun.
  destruct (run_agree r r w (same_but_query_refl _))
    as [(_ & ctx0 & Hrun0 & _ & _ & Hsel)|(Hs' & _)]; [|congruence].
  rewrite Hrun in Hrun0. by simplify_eq.
Qed.


(** X12.  The context holds ['selected_subevents'] exactly for an
    event-scoped request whose [subevent] parameter is not empty and is an
    integer: then it holds the query for the event's sub-occurrences with
    that primary key, which has not run yet, and nothing is logged.  When
    the value is read the query gives these sub-occurrences (possibly none),
    or raises [OverflowError] for a number that the database adapter cannot
    bind.  The log grows, by one line with the message of [int], only when
    such a request carries a parameter that is no integer. *)
Theorem selected_subevents_value (request : HttpRequest) (w w' : world)
    (ctx : gmap string value) :
  _default_context request w = (inr ctx, w') →
  let param := default "" (GET request !! "subevent") in
  let read := event_scoped request && negb (String.eqb param "") in
  ctx !! "selected_subevents" =
    (if read then
       match py_int (py_strip param), event request with
       | inr n, Some e => Some (VSubEvents {| all_rows := subevents e; filter_pk := n |})
       | _, _ => None
       end
     else None)
  ∧ log w' =
      (if read then
         match py_int (py_strip param) with
         | inl msg => log w ++ ["Error parsing subevent ID: " +:+ msg]
         | inr _ => log w
         end
       else log w)%list
  ∧ (∀ qs, ctx !! "selected_subevents" = Some (VSubEvents qs) →
       ∃ e, event request = Some e ∧ all_rows qs = subevents e
            ∧ py_int (py_strip param) = inr (filter_pk qs)
            ∧ evaluate qs =
                if db_int (filter_pk qs)
                then inr (List.filter (λ s, sub_pk s =? filter_pk qs) (subevents e))
                else inl OverflowError).
Proof.
  intros Hrun param read. subst read.
  assert (ctx !! "selected_subevents" =
            (if event_scoped request && negb (String.eqb param "") then
               match py_int (py_strip param), event request with
               | inr n, Some e =>
                   Some (VSubEvents {| all_rows := subevents e; filter_pk := n |})
               | _, _ => None
               end
             else None)
          ∧ log w' =
              (if event_scoped request && negb (String.eqb param "") then
                 match py_int (py_strip param) with
                 | inl msg => log w ++ ["Error parsing subevent ID: " +:+ msg]
                 | inr _ => log w
                 end
               else log w)%list) as [Hsel Hlog].
  { destruct (event_scoped request) eqn:Hs; simpl.
    - destruct (scoped_result _ _ _ _ Hs Hrun)
        as (e & org & ctx1 & w1 & He & _ & Hsel & _ & Hlog & Hsub).
      rewrite subevent_part_exact in Hsub. fold param in Hsub. rewrite He.
      destruct (String.eqb param ""); simpl; [by simplify_eq|].
      destruct (py_int (py_strip param)); simplify_eq; simpl.
      + by rewrite Hlog.
      + by rewrite lookup_insert_eq.
    - by destruct (unscoped_result _ _ _ _ Hs Hrun) as [-> ->]. }
  split; [done|]. split; [done|].
  intros qs Hqs. rewrite Hqs in Hsel.
  destruct (event_scoped request && negb (String.eqb param "")); [|done].
  destruct (py_int (py_strip param)) as [msg|n]; [done|].
  destruct (event request) as [e|]; [|done]. simplify_eq.
  exists e. unfold evaluate. by split_and!.
Qed.

(** X13.  A request that is not event-scoped changes nothing: cache,
    session, log and memo are as before.  For an anonymous user whose path
    resolves under the prefix the context has the six general keys and no
    other: no navigation, no staff data, nothing of the event. *)
Theorem unscoped_request_no_effect (request : HttpRequest) (w w' : world)
    (ctx : gmap string value) :
  _default_context request w = (inr ctx, w') →
  (event_scoped request = false → w' = w)
  ∧ (is_authenticated (user request) = false →
     ctx = ∅
     ∨ dom ctx = list_to_set ["url_name"; "settings"; "django_settings"; "DEBUG";
                              "talk_hostname"; "global_settings"]).
Proof.
  intros Hrun. split.
  - intros Hs. by destruct (unscoped_result _ _ _ _ Hs Hrun).
  - intros Hauth. revert Hrun.
    unfold _default_context, try_except, resolve_, mbind, M_bind, bind, mret, M_ret,
      ret, raise.
    destruct (resolve (path_info request)); simpl; [|intros [= <- _]; by left].
    destruct (String.prefix _ (path request)); simpl; [|intros [= <- _]; by left].
    rewrite Hauth. intros [= <- _]. right.
    rewrite !dom_insert_L, dom_empty_L. simpl. set_solver.
Qed.

Lemma default_context_stages (r : HttpRequest) (w : world) :
  _default_context r w =
    match resolve (path_info r) with
    | None => (inr ∅, w)
    | Some url =>
        if negb (String.prefix (get_script_prefix +:+ "common") (path r))
        then (inr ∅, w)
        else if negb (is_authenticated (user r)) then (inr (general_context url), w)
        else match event r, organizer r with
             | None, _ => (inr (user_context r url), w)
             | Some e, None => (inr (event_context r url e), w)
             | Some e, Some org =>
                 (ctx ← testmode_part r org e (organizer_context r url e w) ;
                  ctx ← child_session_part r e (domain_bound e w) ctx ;
                  subevent_part r e ctx) (after_domain e w)
             end
    end.
Proof.
  unfold _default_context, user_part, event_part.
  unfold try_except at 1. unfold resolve_.
  destruct (resolve (path_info r)) as [url|]; simpl; [|done].
  unfold mbind at 1, M_bind at 1, bind at 1. simpl.
  destruct (String.prefix _ (path r)); simpl; [|done].
  destruct (is_authenticated (user r)); simpl; [|done].
  destruct (event r) as [e|]; simpl; [|done].
  destruct (organizer r); [|done].
  unfold mbind at 1, M_bind at 1, bind at 1.
  by rewrite get_event_domain_run.
Qed.

(** What the three last steps leave of a key they do not set. *)
Lemma steps_keep (r : HttpRequest) (org : Organizer) (e : Event) (has_domain : bool)
    (ctx0 ctx : gmap string value) (w w' : world) (k : string) :
  (c ← testmode_part r org e ctx0 ;
   c ← child_session_part r e has_domain c ;
   subevent_part r e c) w = (inr ctx, w') →
  k ≠ "complain_testmode_orders" → k ≠ "new_session" → k ≠ "selected_subevents" →
  ctx !! k = ctx0 !! k.
Proof.
  unfold mbind, M_bind, bind. rewrite testmode_part_run.
  match goal with
  | |- context [child_session_part r e has_domain ?c ?w0] =>
      destruct (child_session_part_run r e has_domain c w0) as (c1 & w1 & -> & Hk1 & _)
  end.
  destruct (subevent_part_run r e c1 w1) as (c2 & w2 & -> & Hk2 & _).
  intros [= <- _] ? ? ?. rewrite Hk2, Hk1 by done. by rewrite lookup_insert_ne.
Qed.

Lemma steps_flag (r : HttpRequest) (org : Organizer) (e : Event) (has_domain : bool)
    (ctx0 ctx : gmap string value) (w w' : world) :
  (c ← testmode_part r org e ctx0 ;
   c ← child_session_part r e has_domain c ;
   subevent_part r e c) w = (inr ctx, w') →
  ctx !! "complain_testmode_orders" = Some (flag_value r org e w).
Proof.
  unfold mbind, M_bind, bind. rewrite testmode_part_run.
  match goal with
  | |- context [child_session_part r e has_domain ?c ?w0] =>
      destruct (child_session_part_run r e has_domain c w0) as (c1 & w1 & -> & Hk1 & _)
  end.
  destruct (subevent_part_run r e c1 w1) as (c2 & w2 & -> & Hk2 & _).
  intros [= <- _]. rewrite Hk2, Hk1 by done. by rewrite lookup_insert_eq.
Qed.

(** X14.  For an authenticated user on a routed path the context tells
    whether a staff session is active and which staff sessions still need a
    comment, and its navigation is that of the event when the request carries
    an event and an organizer, and the general one otherwise: the event
    navigation replaces the general one, it is not added to it. *)
Theorem authenticated_navigation (request : HttpRequest) (w w' : world)
    (ctx : gmap string value) (url : ResolverMatch) :
  _default_context request w = (inr ctx, w') →
  resolve (path_info request) = Some url →
  String.prefix (get_script_prefix +:+ "common") (path request) = true →
  is_authenticated (user request) = true →
  ctx !! "nav_items" =
    Some (VNav (if event_scoped request then get_event_navigation request
                else get_global_navigation request))
  ∧ ctx !! "staff_session" =
      Some (VBool (has_active_staff_session (user request) (session_key request)))
  ∧ ctx !! "staff_need_to_explain" =
      Some (VStaffSessions (staff_need_to_explain (user request)))
  ∧ ctx !! "url_name" = Some (opt_str (url_name url)).
Proof.
  intros Hrun Hres Hpre Hauth. rewrite default_context_stages in Hrun.
  unfold event_scoped. rewrite Hres, Hpre, Hauth in *. simpl in *.
  destruct (event request) as [e|]; simpl.
  - destruct (organizer request) as [org|]; simpl.
    + rewrite !(steps_keep _ _ _ _ _ _ _ _ _ Hrun) by done.
      unfold organizer_context, event_context, user_context, general_context.
      destruct (talk_event_created e); split_and!; this_key.
    + simplify_eq. unfold event_context, user_context, general_context.
      destruct (talk_event_created e); split_and!; this_key.
  - simplify_eq. unfold user_context, general_context. split_and!; this_key.
Qed.

(** X15.  For an authenticated user on a routed path with an event, the
    context says that the talk event exists exactly when the event was
    created for both components or its talk schedule setting has a value;
    it also holds the video switch and the link to the talk component.  The
    keys ['has_domain'] and ['complain_testmode_orders'] are there only when
    the request carries an organizer too. *)
Theorem event_keys (request : HttpRequest) (w w' : world) (ctx : gmap string value)
    (url : ResolverMatch) (e : Event) :
  _default_context request w = (inr ctx, w') →
  resolve (path_info request) = Some url →
  String.prefix (get_script_prefix +:+ "common") (path request) = true →
  is_authenticated (user request) = true →
  event request = Some e →
  ctx !! "is_talk_event_created" =
    Some (VBool (bool_decide (create_for e = Some EventCreatedFor_BOTH)
                 || bool_decide (talk_schedule_public e ≠ None)))
  ∧ ctx !! "is_video_enabled" = Some (VBool (is_video_enabled e))
  ∧ ctx !! "talk_edit_url" =
      Some (VStr (urljoin TALK_HOSTNAME ("/orga/event/" +:+ slug e)))
  ∧ ctx !! "has_domain" =
      (if organizer request is Some _
       then Some (VBool (domain_bound e w)) else None)
  ∧ (is_Some (ctx !! "complain_testmode_orders") ↔ is_Some (organizer request)).
Proof.
  intros Hrun Hres Hpre Hauth He. rewrite default_context_stages in Hrun.
  rewrite Hres, Hpre, Hauth, He in Hrun. simpl in Hrun.
  fold (talk_event_created e).
  destruct (organizer request) as [org|]; simpl.
  - split_and!;
      try (rewrite (steps_keep _ _ _ _ _ _ _ _ _ Hrun) by done;
           unfold organizer_context, event_context, user_context, general_context;
           destruct (talk_event_created e); this_key).
    split; [by eauto|]. intros _.
    by rewrite (steps_flag _ _ _ _ _ _ _ _ Hrun).
  - simplify_eq. unfold event_context, user_context, general_context.
    destruct (talk_event_created e); split_and!; try this_key; try no_key.
    + split; intros [? Hx]; [|done]. revert Hx.
      by rewrite !lookup_insert_ne, lookup_empty by done.
    + split; intros [? Hx]; [|done]. revert Hx.
      by rewrite !lookup_insert_ne, lookup_empty by done.
Qed.

(** X16.  The staff sessions listed as still to be explained are exactly
    those of the user that have ended and have no comment (none at all, or
    an empty one), and there are none unless the user is staff and the audit
    comments are switched on. *)
Theorem staff_need_to_explain_spec (u : User) (s : StaffSession) :
  s ∈ staff_need_to_explain u ↔
    is_staff u = true ∧ PRETIX_ADMIN_AUDIT_COMMENTS = true
    ∧ s ∈ StaffSession_objects
    ∧ staff_user s = user_pk u ∧ date_end s ≠ None
    ∧ (comment s = None ∨ comment s = Some "").
Proof.
  unfold staff_need_to_explain.
  destruct (is_staff u), PRETIX_ADMIN_AUDIT_COMMENTS; simpl;
    try (split; [by intros ?%elem_of_nil|by intros (? & ? & _)]).
  rewrite !list_elem_of_In, !List.filter_In, andb_true_iff, Z.eqb_eq,
    bool_decide_eq_true.
  split.
  - intros [(? & ? & ?) Hc]. split_and!; try done.
    destruct (comment s) as [c|]; [right|by left].
    by apply String.eqb_eq in Hc as ->.
  - intros (_ & _ & ? & ? & ? & [Hc|Hc]); rewrite Hc; by split_and!.
Qed.

End WithEnv.



Lemma selected_subevents_value_witness :
  let run := _default_context (H := Examples.context_env true)
               Examples.selection_request Examples.fresh_world in
  let huge := _default_context (H := Examples.context_env true)
                Examples.huge_selection_request Examples.fresh_world in
  ctx_of run !! "selected_subevents"
  = Some (VSubEvents {| all_rows := subevents Examples.series_event; filter_pk := 31 |})
  ∧ log run.2 = []
  ∧ evaluate (H := Examples.context_env true)
      {| all_rows := subevents Examples.series_event; filter_pk := 31 |}
    = inr [ {| sub_pk := 31;
               sub_date_from := Some (Examples.midnight 2024 3 1);
               sub_date_to := Some (Examples.midnight 2024 3 2) |} ]
  ∧ ctx_of huge !! "selected_subevents"
    = Some (VSubEvents {| all_rows := subevents Examples.series_event;
                          filter_pk := 99999999999999999999 |})
  ∧ evaluate (H := Examples.context_env true)
      {| all_rows := subevents Examples.series_event;
         filter_pk := 99999999999999999999 |}
    = inl OverflowError.
Proof.
  intros run huge.
  pose proof (selected_subevents_value (H := Examples.context_env true)
                Examples.selection_request Examples.fresh_world run.2 (ctx_of run)
                (run_shape _ _)) as (Hsel & Hlog & Hread).
  pose proof (selected_subevents_value (H := Examples.context_env true)
                Examples.huge_selection_request Examples.fresh_world huge.2
                (ctx_of huge) (run_shape _ _)) as (Hsel' & _ & Hread').
  assert (ctx_of run !! "selected_subevents"
          = Some (VSubEvents {| all_rows := subevents Examples.series_event;
                                filter_pk := 31 |})) as H1
    by (rewrite Hsel; reflexivity).
  assert (ctx_of huge !! "selected_subevents"
          = Some (VSubEvents {| all_rows := subevents Examples.series_event;
                                filter_pk := 99999999999999999999 |})) as H2
    by (rewrite Hsel'; reflexivity).
  split; [exact H1|]. split; [rewrite Hlog; reflexivity|].
  destruct (Hread _ H1) as (e & He & _ & _ & Hev).
  destruct (Hread' _ H2) as (e' & He' & _ & _ & Hev').
  split; [rewrite Hev; injection He as <-; reflexivity|].
  split; [exact H2|]. rewrite Hev'. reflexivity.
Defined.

Lemma unscoped_request_no_effect_witness :
  let run := _default_context (H := Examples.context_env true)
               Examples.anonymous_malformed_request Examples.cached_world in
  run.2 = Examples.cached_world
  ∧ dom (ctx_of run)
    = list_to_set ["url_name"; "settings"; "django_settings"; "DEBUG";
                   "talk_hostname"; "global_settings"].
Proof.
  intros run.
  pose proof (unscoped_request_no_effect (H := Examples.context_env true)
                Examples.anonymous_malformed_request Examples.cached_world run.2
                (ctx_of run) (run_shape _ _)) as [Hw Hd].
  split; [by apply Hw|].
  destruct (Hd eq_refl) as [He|Hd']; [|exact Hd'].
  exfalso. assert (ctx_of run !! "DEBUG" = None) as Hn by (by rewrite He).
  vm_compute in Hn. discriminate.
Defined.

Lemma authenticated_navigation_witness :
  let run := _default_context (H := Examples.context_env true)
               Examples.preview_request Examples.fresh_world in
  ctx_of run !! "nav_items" = Some (VNav ["Dashboard"; "Settings"]).
Proof.
  intros run.
  destruct (authenticated_navigation (H := Examples.context_env true)
              Examples.preview_request Examples.fresh_world run.2 (ctx_of run)
              {| url_name := Some "dashboard" |}
              (run_shape _ _) eq_refl eq_refl eq_refl) as (Hw & _).
  rewrite Hw. reflexivity.
Defined.

Lemma event_keys_witness :
  let run := _default_context (H := Examples.context_env true)
               Examples.preview_request Examples.fresh_world in
  ctx_of run !! "is_talk_event_created" = Some (VBool false)
  ∧ ctx_of run !! "has_domain" = Some (VBool true).
Proof.
  intros run.
  destruct (event_keys (H := Examples.context_env true)
              Examples.preview_request Examples.fresh_world run.2 (ctx_of run)
              {| url_name := Some "dashboard" |} Examples.testing_event
              (run_shape _ _) eq_refl eq_refl eq_refl eq_refl)
    as (Ht & _ & _ & Hd & _).
  split; [rewrite Ht|rewrite Hd]; reflexivity.
Defined.

End ContextMore.

(** ** views/dashboards.py: the event index *)
Module EventIndexFacts.
Import StableSort StableSortFacts StableSortMore Models EventIndex Spec.

Lemma newest_first_strict_weak : StrictWeak (λ a b : LogEntry, datetime b <? datetime a).
Proof.
  split; intros *; rewrite ?Z.ltb_lt, ?Z.ltb_ge; lia.
Qed.

Lemma StronglySorted_filter {A} (R : A → A → Prop) (P : A → bool) l :
  StronglySorted R l → StronglySorted R (List.filter P l).
Proof.
  induction 1 as [|x l Hl IH Hx]; simpl; [constructor|].
  destruct (P x); [|done]. constructor; [done|].
  apply Forall_forall. intros y [Hy _]%list_elem_of_In%List.filter_In.
  rewrite Forall_forall in Hx. by apply Hx, list_elem_of_In.
Qed.

Lemma StronglySorted_take {A} (R : A → A → Prop) n l :
  StronglySorted R l → StronglySorted R (take n l).
Proof.
  intros Hl. rewrite <- (take_drop n l) in Hl.
  by apply StronglySorted_app_1_l in Hl.
Qed.

Section WithEnv.
Context `{Env}.

Lemma overview_logs_sorted request org e vo vv cs :
  StronglySorted (λ a b, datetime b ≤ datetime a) (overview_logs request org e vo vv cs).
Proof.
  unfold overview_logs.
  assert (StronglySorted (λ a b, datetime b ≤ datetime a)
            (stable_sort (λ a b, datetime b <? datetime a) (logentry_set e))) as Hs.
  { eapply RankerFacts.StronglySorted_weaken;
      [|apply (stable_sort_in_order _ (StrictWeak0 := newest_first_strict_weak))].
    intros a b Hab. simpl in Hab. by apply Z.ltb_ge in Hab. }
  destruct vo, vv, cs; simpl; repeat apply StronglySorted_filter; done.
Qed.

Lemma elem_of_filter_if {A} (c : bool) (P : A → bool) (l : list A) (x : A) :
  x ∈ (if c then List.filter P l else l) ↔ x ∈ l ∧ (c = true → P x = true).
Proof.
  destruct c.
  - rewrite !list_elem_of_In, List.filter_In. split; intros [? ?]; auto.
  - split; [by intros ?|by intros [? _]].
Qed.

Lemma overview_logs_elem_of request org e (l : LogEntry) :
  let may p := has_event_permission (user request) org e p request in
  l ∈ overview_logs request org e (may "can_view_orders") (may "can_view_vouchers")
        (may "can_change_event_settings")
  ↔ l ∈ logentry_set e ∧ log_visible request org e l.
Proof.
  intros may. unfold overview_logs, log_visible. fold (may "can_change_items").
  fold (may "can_view_orders") (may "can_view_vouchers")
    (may "can_change_event_settings").
  rewrite !elem_of_filter_if.
  rewrite list_elem_of_In, List.filter_In, <- list_elem_of_In,
    (stable_sort_elem_of (λ a b, datetime b <? datetime a)).
  rewrite !negb_true_iff, !bool_decide_eq_false, bool_decide_eq_true.
  destruct (may "can_view_orders"), (may "can_view_vouchers"),
    (may "can_change_event_settings"), (may "can_change_items"); simpl;
    rewrite ?elem_of_cons, ?elem_of_nil; intuition congruence.
Qed.

(** X17.  Without the permission to view orders the event index shows no
    dashboard widget, none of its five order warnings is set, and its log
    shows no entry about an order. *)
Theorem index_without_view_orders (request : HttpRequest) (org : Organizer)
    (e : Event) (now : Z) (ctx : index_ctx) :
  event_index request org e now = inr ctx →
  has_event_permission (user request) org e "can_view_orders" request = false →
  widgets ctx = []
  ∧ has_overpaid_orders ctx = false
  ∧ has_pending_orders_with_full_payment ctx = false
  ∧ has_pending_refunds ctx = false
  ∧ has_pending_approvals ctx = false
  ∧ has_cancellation_requests ctx = false
  ∧ Forall (λ l, content_type l ≠ ct_Order) (logs ctx).
Proof.
  unfold event_index. destruct (select_subevent request e); [done|].
  intros [= <-] Hno. simpl. rewrite Hno. simpl. split_and!; try done.
  apply Forall_forall. intros l (i & Hl & _)%elem_of_take.
  apply list_elem_of_lookup_2 in Hl.
  pose proof (proj1 (overview_logs_elem_of request org e l)) as Hv.
  simpl in Hv. rewrite Hno in Hv. apply Hv in Hl as (_ & _ & [Hf|Hne] & _); [|done].
  by rewrite Hno in Hf.
Qed.

(** X18.  The log of the event index holds at most five entries, newest
    first; they are the newest of the entries of the event that the user may
    see, and no other entry: an entry that the user may see and that is not
    shown is not newer than any entry shown. *)
Theorem index_logs (request : HttpRequest) (org : Organizer) (e : Event) (now : Z)
    (ctx : index_ctx) :
  event_index request org e now = inr ctx →
  (length (logs ctx) ≤ 5)%nat
  ∧ StronglySorted (λ a b, datetime b ≤ datetime a) (logs ctx)
  ∧ Forall (λ l, l ∈ logentry_set e ∧ log_visible request org e l) (logs ctx)
  ∧ ∃ rest, (∀ l, l ∈ logentry_set e ∧ log_visible request org e l
                  ↔ l ∈ logs ctx ∨ l ∈ rest)
            ∧ (rest ≠ [] → length (logs ctx) = 5%nat)
            ∧ ∀ a b, a ∈ logs ctx → b ∈ rest → datetime b ≤ datetime a.
Proof.
  unfold event_index. destruct (select_subevent request e); [done|].
  intros [= <-]. simpl.
  set (qs := overview_logs request org e _ _ _).
  pose proof (overview_logs_sorted request org e
                (has_event_permission (user request) org e "can_view_orders" request)
                (has_event_permission (user request) org e "can_view_vouchers" request)
                (has_event_permission (user request) org e
                   "can_change_event_settings" request)) as Hsorted.
  fold qs in Hsorted.
  assert (∀ l, l ∈ qs ↔ l ∈ logentry_set e ∧ log_visible request org e l) as Hin
    by apply overview_logs_elem_of.
  split_and!.
  - rewrite length_take. lia.
  - by apply StronglySorted_take.
  - apply Forall_forall. intros l (i & Hl & _)%elem_of_take.
    apply list_elem_of_lookup_2 in Hl. by apply Hin.
  - exists (drop 5 qs). split_and!.
    + intros l. rewrite <- Hin, <- elem_of_app. by rewrite take_drop.
    + intros Hrest. rewrite length_take.
      destruct (decide (length qs ≤ 5)%nat) as [Hle|]; [|lia].
      by rewrite drop_ge in Hrest.
    + intros a b Ha Hb. rewrite <- (take_drop 5 qs) in Hsorted.
      by apply (StronglySorted_app_1_elem_of _ _ _ a b) in Hsorted.
Qed.

(** X19.  The event index lists at most five required actions, each of
    them an action of the event that is not done, rendered for the request;
    it lists none without the permission to change orders. *)
Theorem index_actions (request : HttpRequest) (org : Organizer) (e : Event) (now : Z)
    (ctx : index_ctx) :
  event_index request org e now = inr ctx →
  (length (actions ctx) ≤ 5)%nat
  ∧ Forall (λ a, a.1 ∈ requiredaction_set e ∧ done a.1 = false
                 ∧ a.2 = display a.1 request) (actions ctx)
  ∧ (has_event_permission (user request) org e "can_change_orders" request = false →
     actions ctx = [])
  ∧ (has_event_permission (user request) org e "can_change_orders" request = true →
     fst <$> actions ctx
     = take 5 (List.filter (λ a, negb (done a)) (requiredaction_set e))).
Proof.
  unfold event_index. destruct (select_subevent request e); [done|].
  intros [= <-]. simpl.
  destruct (has_event_permission (user request) org e "can_change_orders" request);
    simpl; split_and!; try done.
  - rewrite length_fmap, length_take. lia.
  - apply Forall_fmap, Forall_forall. intros a (i & Ha & _)%elem_of_take.
    apply list_elem_of_lookup_2, list_elem_of_In, List.filter_In in Ha as [Ha Hd].
    simpl. split_and!; [by apply list_elem_of_In|by apply negb_true_iff|done].
  - intros _. rewrite <- list_fmap_compose. apply list_fmap_id.
  - lia.
Qed.

(** X20.  A sub-occurrence is selected only for an event with
    sub-occurrences, and then it is the sub-occurrence of that event whose
    primary key is the integer in the [subevent] parameter.  A number that
    the database adapter can bind and that names no sub-occurrence of the
    event selects nothing and raises nothing, in [event_index] and in
    [event_index_widgets_lazy]. *)
Theorem index_subevent_selection (request : HttpRequest) (org : Organizer) (e : Event)
    (now : Z) :
  let param := default "" (GET request !! "subevent") in
  (∀ ctx s, event_index request org e now = inr ctx → subevent ctx = Some s →
            has_subevents e = true ∧ param ≠ "" ∧ s ∈ subevents e
            ∧ py_int param = Some (sub_pk s) ∧ db_int (sub_pk s) = true)
  ∧ (∀ n, py_int param = Some n → db_int n = true →
          Forall (λ s, sub_pk s ≠ n) (subevents e) →
          (∃ ctx, event_index request org e now = inr ctx ∧ subevent ctx = None)
          ∧ event_index_widgets_lazy request org e
            = inr (concat (event_dashboard_widgets e None false)))
  ∧ (has_subevents e = false ∨ param = "" →
     (∃ ctx, event_index request org e now = inr ctx ∧ subevent ctx = None)
     ∧ event_index_widgets_lazy request org e
       = inr (concat (event_dashboard_widgets e None false))).
Proof.
  intros param. split_and!.
  - intros ctx s. unfold event_index.
    destruct (select_subevent request e) as [|sel] eqn:Hsel; [done|].
    intros [= <-]. simpl. intros ->. revert Hsel.
    unfold select_subevent, subevents_get. fold param.
    destruct (String.eqb_spec param "") as [|Hne]; simpl; [done|].
    destruct (has_subevents e); simpl; [|done].
    destruct (py_int param) as [m|]; [|done].
    destruct (db_int m) eqn:Hdb; [|done].
    destruct (List.filter _ (subevents e)) as [|s' [|]] eqn:Hf; [done| |done].
    intros [= ->].
    assert (In s (List.filter (λ s, sub_pk s =? m) (subevents e))) as Hin
      by (rewrite Hf; by left).
    apply List.filter_In in Hin as [Hin Hpk%Z.eqb_eq].
    split_and!; [done|done|by apply list_elem_of_In|by rewrite Hpk|by rewrite Hpk].
  - intros n Hn Hdb Hnone.
    assert (select_subevent request e = inr None) as Hsel.
    { unfold select_subevent, subevents_get. fold param. rewrite Hn, Hdb.
      destruct (negb _ && _); [|done].
      replace (List.filter (λ s, sub_pk s =? n) (subevents e)) with (@nil SubEvent);
        [done|].
      symmetry. clear -Hnone. induction Hnone as [|s l Hs Hl IH]; [done|]. simpl.
      by destruct (Z.eqb_spec (sub_pk s) n). }
    unfold event_index, event_index_widgets_lazy. rewrite Hsel. split; [|done].
    by eexists.
  - intros Hor.
    assert (select_subevent request e = inr None) as Hsel.
    { unfold select_subevent. fold param.
      destruct Hor as [->| ->]; [by rewrite andb_false_r|done]. }
    unfold event_index, event_index_widgets_lazy. rewrite Hsel. split; [|done].
    by eexists.
Qed.

(** X21.  Only [SubEvent.DoesNotExist] is caught around the lookup.  For an
    event with sub-occurrences, a [subevent] parameter that is not empty
    and is no integer makes [event_index] and [event_index_widgets_lazy]
    fail with the [ValueError] of the lookup, which quotes the [repr] of the
    parameter; an integer that the database adapter cannot bind makes both
    fail with its [OverflowError]. *)
Theorem index_malformed_subevent_raises (request : HttpRequest) (org : Organizer)
    (e : Event) (now : Z) (i : string) :
  GET request !! "subevent" = Some i → i ≠ "" → has_subevents e = true →
  (py_int i = None →
   let error :=
     ValueError ("Field 'id' expected a number but got " +:+ py_repr i +:+ ".") in
   event_index request org e now = inl error
   ∧ event_index_widgets_lazy request org e = inl error)
  ∧ (∀ n, py_int i = Some n → db_int n = false →
          event_index request org e now = inl OverflowError
          ∧ event_index_widgets_lazy request org e = inl OverflowError).
Proof.
  intros Hi Hne Hsub.
  assert (select_subevent request e
          = match subevents_get e i with
            | inr s => inr (Some s)
            | inl DoesNotExist => inr None
            | inl err => inl err
            end) as Hsel.
  { unfold select_subevent. rewrite Hi, Hsub. simpl.
    by destruct (String.eqb_spec i ""). }
  unfold event_index, event_index_widgets_lazy. rewrite Hsel.
  unfold subevents_get. split.
  - by intros ->.
  - by intros n -> ->.
Qed.

End WithEnv.

Lemma index_without_view_orders_witness :
  ∃ ctx, event_index (H := Examples.index_env ["can_view_vouchers"])
           Examples.selection_request Examples.demo_organizer Examples.busy_event 0
         = inr ctx
         ∧ widgets ctx = [] ∧ has_pending_approvals ctx = false
         ∧ logs ctx = [Examples.voucher_log].
Proof.
  eexists. split; [reflexivity|].
  pose proof (index_without_view_orders (H := Examples.index_env ["can_view_vouchers"])
                Examples.selection_request Examples.demo_organizer Examples.busy_event 0
                _ eq_refl eq_refl) as (Hw & _ & _ & _ & Ha & _).
  split; [exact Hw|]. split; [exact Ha|]. reflexivity.
Defined.

Lemma index_logs_witness :
  ∃ ctx, event_index (H := Examples.index_env ["can_view_orders"; "can_change_items"])
           Examples.selection_request Examples.demo_organizer Examples.busy_event 0
         = inr ctx
         ∧ logs ctx = [Examples.item_log; Examples.order_log]
         ∧ StronglySorted (λ a b, datetime b ≤ datetime a) (logs ctx).
Proof.
  eexists. split; [reflexivity|]. split; [reflexivity|].
  exact (proj1 (proj2 (index_logs
                         (H := Examples.index_env ["can_view_orders"; "can_change_items"])
                         Examples.selection_request Examples.demo_organizer
                         Examples.busy_event 0 _ eq_refl))).
Defined.

Lemma index_actions_witness :
  ∃ ctx, event_index (H := Examples.index_env ["can_change_orders"])
           Examples.selection_request Examples.demo_organizer Examples.busy_event 0
         = inr ctx
         ∧ fst <$> actions ctx = [ {| done := false |}; {| done := false |} ].
Proof.
  eexists. split; [reflexivity|].
  rewrite (proj2 (proj2 (proj2 (index_actions
                                  (H := Examples.index_env ["can_change_orders"])
                                  Examples.selection_request Examples.demo_organizer
                                  Examples.busy_event 0 _ eq_refl))) eq_refl).
  reflexivity.
Defined.

Lemma index_subevent_selection_witness :
  (∃ ctx, event_index (H := Examples.index_env []) Examples.selection_request
            Examples.demo_organizer Examples.busy_event 0 = inr ctx
          ∧ (sub_pk <$> subevent ctx) = Some 31)
  ∧ ∃ ctx, event_index (H := Examples.index_env []) Examples.missing_selection_request
             Examples.demo_organizer Examples.busy_event 0 = inr ctx
           ∧ subevent ctx = None.
Proof.
  split.
  - eexists. split; [reflexivity|]. reflexivity.
  - apply (proj1 (proj2 (index_subevent_selection (H := Examples.index_env [])
                           Examples.missing_selection_request Examples.demo_organizer
                           Examples.busy_event 0)) 99 eq_refl eq_refl).
    repeat constructor; discriminate.
Defined.

Lemma index_malformed_subevent_raises_witness :
  event_index (H := Examples.index_env []) Examples.malformed_selection_request
    Examples.demo_organizer Examples.busy_event 0
  = inl (ValueError "Field 'id' expected a number but got 'abc'.")
  ∧ event_index (H := Examples.index_env []) Examples.huge_selection_request
      Examples.demo_organizer Examples.busy_event 0
    = inl OverflowError.
Proof.
  split.
  - apply (proj1 (index_malformed_subevent_raises (H := Examples.index_env [])
                    Examples.malformed_selection_request Examples.demo_organizer
                    Examples.busy_event 0 "abc"
                    eq_refl ltac:(discriminate) eq_refl) eq_refl).
  - apply (proj2 (index_malformed_subevent_raises (H := Examples.index_env [])
                    Examples.huge_selection_request Examples.demo_organizer
                    Examples.busy_event 0 "99999999999999999999"
                    eq_refl ltac:(discriminate) eq_refl)
             99999999999999999999 eq_refl eq_refl).
Defined.

End EventIndexFacts.

(** ** views/dashboards.py: the dashboard and its lazy endpoint *)
Module LazyFacts.
Import StableSort StableSortFacts StableSortMore Models Dashboards QueryFacts QueryMore.

Section WithEnv.
Context `{Env}.

(** Neither a filter of the dashboard nor a column it orders by looks at
    what the [lazy] switch changes in a row. *)
Lemma field_lazy v f e : field f (annotate v true e) = field f (annotate v false e).
Proof.
  unfold field. repeat destruct (String.eqb f _); try done.
Qed.

Lemma ordering_lazy v f e :
  (ordering f).2 (annotate v true e) = (ordering f).2 (annotate v false e).
Proof.
  unfold ordering. destruct f as [|c g]; [apply field_lazy|].
  destruct c as [[] [] [] [] [] [] [] []]; apply field_lazy.
Qed.

Lemma cmp_rows_lazy v fields e1 e2 :
  cmp_rows v (ordering <$> fields) (annotate v true e1) (annotate v true e2)
  = cmp_rows v (ordering <$> fields) (annotate v false e1) (annotate v false e2).
Proof.
  induction fields as [|f fields IH]; [done|].
  cbn [fmap list_fmap cmp_rows].
  pose proof (ordering_lazy v f e1) as H1. pose proof (ordering_lazy v f e2) as H2.
  destruct (ordering f) as [d g]. simpl in H1, H2. rewrite H1, H2.
  destruct (cmp_col v d _ _); [|done..]. apply IH.
Qed.

Lemma bucket_events (fields : list string) (q : annotated_event → option bool)
    (request : HttpRequest) (lazy : bool) :
  (∀ e, q (annotate db true e) = q (annotate db false e)) →
  ev <$> order_by fields (qfilter q (annotated_event_query request lazy))
  = ev <$> order_by fields (qfilter q (annotated_event_query request true)).
Proof.
  intros Hq. destruct lazy; [done|].
  unfold order_by, qfilter, annotated_event_query.
  rewrite !filter_fmap, !stable_sort_fmap, <- !list_fmap_compose.
  rewrite (stable_sort_ext _
             (λ a b, if cmp_rows db (ordering <$> fields) (annotate db true a)
                          (annotate db true b) is Lt then true else false))
    by (intros; by rewrite cmp_rows_lazy).
  rewrite (List.filter_ext _
             (λ e, if q (annotate db true e) is Some true then true else false))
    by (intros; by rewrite Hq).
  reflexivity.
Qed.

Lemma widget_tokens (request : HttpRequest) (qs : list annotated_event) (u : User)
    (nmax : nat) (lazy : bool) :
  Dashboards.lazy <$> widgets_for_event_qs request qs u nmax lazy
  = (λ e, Some ("event-" +:+ pretty (pk e))) <$> take nmax (ev <$> qs).
Proof.
  unfold widgets_for_event_qs. by rewrite <- fmap_take, <- !list_fmap_compose.
Qed.

(** X22.  With the same four readings of the clock, the deferred widgets that
    [organiser_dashboard] puts on the page (their content is empty) and the
    widgets that [user_index_widgets_lazy] delivers for them name the same
    events in the same order: the rows that the [lazy] switch leaves out of
    the query change neither the filters nor the orderings. *)
Theorem lazy_endpoint_matches_dashboard (request : HttpRequest)
    (now1 now2 now3 now4 : Z) :
  let ctx := organiser_dashboard request now1 now2 now3 now4 in
  let placeholders := (ctx_upcoming ctx ++ ctx_past ctx ++ ctx_series ctx)%list in
  Dashboards.lazy <$> user_index_widgets_lazy request now1 now2 now3 now4
  = Dashboards.lazy <$> placeholders
  ∧ Forall (λ w, content w = Some "") placeholders.
Proof.
  intros ctx placeholders. subst placeholders ctx. unfold user_index_widgets_lazy.
  simpl. split.
  - rewrite !fmap_app, !widget_tokens.
    unfold upcoming_qs, past_qs, series_qs.
    rewrite (bucket_events _ (upcoming now1 now2) request false) by done.
    rewrite (bucket_events _ (past now3 now4) request false) by done.
    rewrite (bucket_events _ series request false) by done.
    by rewrite <- !app_assoc.
  - rewrite !Forall_app. unfold widgets_for_event_qs.
    split_and!; apply Forall_fmap, Forall_true; done.
Qed.

End WithEnv.
End LazyFacts.

(** ** context.py: one request after another *)
Module ContextRuns.
Import Models Context Spec ContextFacts ContextMore.
Section WithEnv.
Context `{Env}.

Lemma scoped_flag_cache (r : HttpRequest) (w w' : world) (ctx : gmap string value) :
  event_scoped r = true → _default_context r w = (inr ctx, w') →
  ∃ e org,
    event r = Some e ∧ organizer r = Some org
    ∧ cache w' = cache (after_testmode e (after_domain e w))
    ∧ ctx !! "complain_testmode_orders" = Some (flag_value r org e w).
Proof.
  intros Hs Hrun.
  destruct (scoped_result r w w' ctx Hs Hrun)
    as (e & org & ctx1 & w1 & He & Ho & _ & Hc & _ & Hsub).
  destruct (subevent_part_run r e ctx1 w1) as (c2 & w2 & Hsub' & _ & Hc' & _).
  rewrite Hsub in Hsub'. simplify_eq.
  destruct (scoped_steps r w Hs) as (e' & org' & ctx0 & He' & Ho' & _ & _ & _ & Hsteps).
  rewrite Hrun in Hsteps. simplify_eq.
  exists e, org. split_and!; [done|done|congruence|].
  rewrite (steps_flag _ _ _ _ _ _ _ _ (eq_sym Hsteps)).
  by rewrite flag_value_after_domain.
Qed.

(** The entries that a run leaves are found by the next one. *)
Lemma after_domain_again (e : Event) (w w' : world) :
  cache w' !! "domain_fallback" = cache (after_domain e w) !! "domain_fallback" →
  domain_of e w' = domain_of e w ∧ cache (after_domain e w') = cache w'.
Proof.
  unfold after_domain, domain_of. intros Hc.
  destruct (default DNone (fst <$> cache w !! "domain_fallback")) eqn:Hw;
    simpl in Hc; rewrite ?lookup_insert_eq in Hc; rewrite Hc; simpl;
    rewrite ?Hw; done.
Qed.

Lemma after_testmode_again (e : Event) (w w' : world) :
  cache w' !! "complain_testmode_orders"
  = cache (after_testmode e w) !! "complain_testmode_orders" →
  cached_answer e w' = cached_answer e w
  ∧ cache (after_testmode e w') = cache w'.
Proof.
  unfold after_testmode, cached_answer. intros Hc.
  destruct (testmode e).
  - by rewrite Hc.
  - destruct (default DNone (fst <$> cache w !! "complain_testmode_orders")) eqn:Hw;
      simpl in Hc; rewrite ?lookup_insert_eq in Hc; rewrite Hc; simpl;
      rewrite ?Hw; done.
Qed.

Lemma after_testmode_other (e : Event) (w : world) (k : string) :
  k ≠ "complain_testmode_orders" →
  cache (after_testmode e w) !! k = cache w !! k.
Proof.
  intros Hk. unfold after_testmode. destruct (testmode e); [done|].
  destruct (default DNone (fst <$> cache w !! _)); try done.
  simpl. by rewrite lookup_insert_ne.
Qed.

Lemma after_testmode_cache (e : Event) (w w' : world) :
  cache w' = cache w → cache (after_testmode e w') = cache (after_testmode e w).
Proof.
  intros Hc. unfold after_testmode. rewrite Hc. destruct (testmode e); [done|].
  by destruct (default DNone (fst <$> cache w !! _)).
Qed.

(** What a second run finds after a first one. *)
Lemma second_run (e : Event) (w w1 : world) :
  cache w1 = cache (after_testmode e (after_domain e w)) →
  domain_of e w1 = domain_of e w
  ∧ cached_answer e w1 = cached_answer e w
  ∧ cache (after_testmode e (after_domain e w1)) = cache w1.
Proof.
  intros Hc.
  destruct (after_domain_again e w w1) as [Hd Hcd].
  { rewrite Hc. by apply after_testmode_other. }
  destruct (after_testmode_again e (after_domain e w) w1) as [Ha Hct].
  { by rewrite Hc. }
  split_and!; [done| |].
  - by rewrite Ha, cached_answer_after_domain.
  - by rewrite (after_testmode_cache e w1 (after_domain e w1)).
Qed.


Lemma scoped_session (r : HttpRequest) (e : Event) (w w' : world)
    (ctx : gmap string value) :
  event_scoped r = true → event r = Some e →
  _default_context r w = (inr ctx, w') →
  let key := "child_session_" +:+ pretty (pk e) in
  let child_sess := default DNone (session w !! key) in
  (if negb (live e) && domain_bound e w
   then session w' = <["event_access" := DBool true]>
                       (if truthy child_sess then session w
                        else <[key := opt_data (session_key r)]> (session w))
        ∧ ctx !! "new_session"
          = (if truthy child_sess then Some (VData child_sess) else None)
   else session w' = session w ∧ ctx !! "new_session" = None)
  ∧ cache w' = cache (after_testmode e (after_domain e w)).
Proof.
  intros Hs He Hrun key child_sess.
  destruct (scoped_flag_cache _ _ _ _ Hs Hrun) as (e0 & org0 & He0 & _ & Hcache & _).
  simplify_eq. split; [|done].
  destruct (scoped_steps r w Hs)
    as (e' & org & ctx0 & He' & Ho & Hn & Hsel & Hf & Hsteps).
  rewrite Hrun in Hsteps. simplify_eq.
  unfold mbind, M_bind, bind in Hsteps.
  rewrite testmode_part_run in Hsteps.
  set (w0 := after_testmode e (after_domain e w)) in *.
  assert (session w0 = session w) as Hw0.
  { subst w0. rewrite (proj1 (after_testmode_frame _ _)).
    apply after_domain_frame. }
  rewrite child_session_part_exact in Hsteps.
  fold key in Hsteps. rewrite Hw0 in Hsteps. subst child_sess.
  destruct (negb (live e) && domain_bound e w); simpl in *.
  - destruct (truthy (default DNone (session w !! key))); simpl in Hsteps;
      rewrite subevent_part_exact in Hsteps;
      destruct (String.eqb _ ""); [|destruct (py_int _)| |destruct (py_int _)];
      simplify_eq; simpl; rewrite ?Hw0; split; try done;
      by rewrite ?lookup_insert_ne, ?lookup_insert_eq by done.
  - rewrite subevent_part_exact in Hsteps.
    destruct (String.eqb _ ""); [|destruct (py_int _)];
      simplify_eq; simpl; split; try done;
      by rewrite ?lookup_insert_ne by done.
Qed.

(** X24.  For a preview (an event-scoped request, an event that is not
    live and has a domain), the first request of a session stores the
    session key as the child session and hands no ['new_session'] to the
    template; the next request finds it and hands it over, and no longer
    changes the session. *)
Theorem child_session_second_request (request : HttpRequest) (e : Event)
    (k : string) (w w1 w2 : world) (ctx1 ctx2 : gmap string value) :
  event_scoped request = true → event request = Some e →
  live e = false → domain_bound e w = true →
  session_key request = Some k → k ≠ "" →
  truthy (default DNone (session w !! ("child_session_" +:+ pretty (pk e)))) = false →
  _default_context request w = (inr ctx1, w1) →
  _default_context request w1 = (inr ctx2, w2) →
  ctx1 !! "new_session" = None
  ∧ ctx2 !! "new_session" = Some (VStr k)
  ∧ session w2 = session w1.
Proof.
  intros Hs He Hlive Hdom Hk Hne Hcs Hrun1 Hrun2.
  pose proof (scoped_session _ _ _ _ _ Hs He Hrun1) as [H1 Hc1].
  pose proof (scoped_session _ _ _ _ _ Hs He Hrun2) as [H2 _].
  cbv zeta in H1, H2.
  assert (domain_bound e w1 = true) as Hdom1.
  { unfold domain_bound in *. by rewrite (proj1 (second_run e w w1 Hc1)). }
  rewrite Hlive, Hdom in H1. rewrite Hlive, Hdom1 in H2. simpl in H1, H2.
  rewrite Hcs, Hk in H1. simpl in H1. destruct H1 as [Hs1 Hn1].
  assert ("child_session_" +:+ pretty (pk e) ≠ "event_access") as Hkey by done.
  rewrite Hs1 in H2.
  rewrite lookup_insert_ne, lookup_insert_eq in H2 by done. simpl in H2.
  destruct (String.eqb_spec k ""); [done|]. simpl in H2.
  destruct H2 as [Hs2 Hn2]. split_and!; [done|done|].
  by rewrite Hs2, Hs1, insert_insert_eq.
Qed.

End WithEnv.


Lemma child_session_second_request_witness :
  let run1 := _default_context (H := Examples.context_env true)
                Examples.preview_request Examples.fresh_world in
  let run2 := _default_context (H := Examples.context_env true)
                Examples.preview_request run1.2 in
  ctx_of run1 !! "new_session" = None
  ∧ ctx_of run2 !! "new_session" = Some (VStr "s3ss10n")
  ∧ session run2.2 = session run1.2.
Proof.
  intros run1 run2.
  apply (child_session_second_request (H := Examples.context_env true)
           Examples.preview_request Examples.testing_event "s3ss10n"
           Examples.fresh_world run1.2 run2.2 (ctx_of run1) (ctx_of run2));
    [vm_compute; reflexivity|reflexivity|reflexivity|reflexivity|reflexivity
    |discriminate|vm_compute; reflexivity|apply run_shape|apply run_shape].
Defined.

End ContextRuns.
